(** * gitmodel.workspace: a shallow embedding of [Workspace] and [Branch]

    The embedding follows [gitmodel/workspace.py] method by method.  A
    method of [Workspace] becomes a computation over the workspace (its
    attributes together with the repository they point at) that either
    returns a value or raises a Python exception; the state reached when an
    exception is raised is kept, as in Python.

    The object store (pygit2) is an external collaborator.  It is modelled in
    [Module pygit2] from its documented interface: references are a finite
    map from names to direct or symbolic targets, and an object id is
    identified with the content it names (ids are content-derived and
    collision free). *)

From stdpp Require Import base option list gmap strings.
From Stdlib Require Import ZArith Ascii.

Local Open Scope string_scope.
Local Open Scope list_scope.
Local Open Scope Z_scope.

(** ** Python exceptions and outcomes *)

Inductive Exception :=
| KeyError
| AttributeError (attr : string)
| TypeError
| ValueError (msg : string)
| GitError
| TreeConflict (name : string)
| RepositoryNotFound (msg : string)
| RepositoryError (msg : string)
| LockWaitTimeoutExceeded (msg : string)
| OtherException (tag : string).

Global Instance Exception_eq_dec : EqDecision Exception.
Proof. solve_decision. Defined.

(** [Diverge] is only produced by a [while] loop that exhausts its fuel. *)
Inductive Outcome (A : Type) :=
| Return (a : A)
| Raise (e : Exception)
| Diverge.
Arguments Return {A} a.
Arguments Raise {A} e.
Arguments Diverge {A}.

Definition is_KeyError (e : Exception) : bool :=
  match e with KeyError => true | _ => false end.

(** ** Objects of the store *)

Record Signature := mkSignature {
  sig_name : string;
  sig_email : string;
  sig_time : Z;
  sig_offset : Z
}.

Global Instance Signature_eq_dec : EqDecision Signature.
Proof. solve_decision. Defined.

(** An object id is content-derived and equality of ids is equality of
    content, so an id is modelled as the content term itself.  A tree entry
    is [(name, (id, filemode))]. *)
Local Unset Elimination Schemes.
Inductive Oid :=
| BlobId (data : string)
| TreeId (entries : list (string * (Oid * Z)))
| CommitId (tree : Oid) (parents : list Oid)
           (author committer : Signature) (message : string).

Local Set Elimination Schemes.

Abbreviation TreeEntries := (list (string * (Oid * Z))).

Section Oid_induction.
Variable P : Oid → Prop.
Hypothesis Hblob : ∀ d, P (BlobId d).
Hypothesis Htree : ∀ es, Forall (λ e, P (fst (snd e))) es → P (TreeId es).
Hypothesis Hcommit :
  ∀ t ps a c m, P t → Forall P ps → P (CommitId t ps a c m).

Fixpoint Oid_nested_ind (o : Oid) : P o :=
  match o with
  | BlobId d => Hblob d
  | TreeId es =>
      Htree es
        ((fix go (es : TreeEntries) : Forall (λ e, P (fst (snd e))) es :=
            match es with
            | [] => List.Forall_nil _
            | e :: r => List.Forall_cons _ e r (Oid_nested_ind (fst (snd e))) (go r)
            end) es)
  | CommitId t ps a c m =>
      Hcommit t ps a c m (Oid_nested_ind t)
        ((fix go (ps : list Oid) : Forall P ps :=
            match ps with
            | [] => List.Forall_nil _
            | p :: r => List.Forall_cons _ p r (Oid_nested_ind p) (go r)
            end) ps)
  end.
End Oid_induction.

Fixpoint oid_eqb (a b : Oid) {struct a} : bool :=
  match a, b with
  | BlobId d, BlobId d' => bool_decide (d = d')
  | TreeId es, TreeId es' =>
      (fix go (es es' : TreeEntries) {struct es} : bool :=
         match es, es' with
         | [], [] => true
         | e :: r, e' :: r' =>
             bool_decide (fst e = fst e')
             && oid_eqb (fst (snd e)) (fst (snd e'))
             && bool_decide (snd (snd e) = snd (snd e'))
             && go r r'
         | _, _ => false
         end) es es'
  | CommitId t ps a c m, CommitId t' ps' a' c' m' =>
      oid_eqb t t'
      && (fix go (ps ps' : list Oid) {struct ps} : bool :=
            match ps, ps' with
            | [], [] => true
            | p :: r, p' :: r' => oid_eqb p p' && go r r'
            | _, _ => false
            end) ps ps'
      && bool_decide (a = a') && bool_decide (c = c') && bool_decide (m = m')
  | _, _ => false
  end.

Lemma oid_eqb_eq (a b : Oid) : oid_eqb a b = true ↔ a = b.
Proof.
  revert b. induction a as [d | es IH | t ps au co m IHt IHps] using Oid_nested_ind;
    intros [d' | es' | t' ps' au' co' m']; simpl;
    try (split; [discriminate | congruence]).
  - rewrite bool_decide_eq_true. split; congruence.
  - revert es'. induction IH as [| [n [c md]] r Hc _ IHr]; intros [| [n' [c' md']] r'];
      try (split; [discriminate | congruence]); [done |].
    simpl in *. rewrite !andb_true_iff, !bool_decide_eq_true, Hc.
    specialize (IHr r'). split.
    + intros [[[-> ->] ->] Hr]. apply IHr in Hr. congruence.
    + intros [= -> -> -> ->]. repeat split; try done. apply IHr. done.
  - rewrite !andb_true_iff, !bool_decide_eq_true, IHt.
    assert (Hps : ∀ qs,
      (fix go (ps ps' : list Oid) {struct ps} : bool :=
         match ps, ps' with
         | [], [] => true
         | p :: r, p' :: r' => oid_eqb p p' && go r r'
         | _, _ => false
         end) ps qs = true ↔ ps = qs).
    { induction IHps as [| p r Hp _ IHr]; intros [| q qs];
        try (split; [discriminate | congruence]); [done |].
      rewrite andb_true_iff, Hp, IHr. split; [intros [-> ->]; done | intros [= -> ->]; done]. }
    rewrite Hps. split.
    + intros [[[[-> ->] ->] ->] ->]. done.
    + intros [= -> -> -> -> ->]. done.
Qed.

Global Instance Oid_eq_dec : EqDecision Oid.
Proof.
  intros a b. destruct (oid_eqb a b) eqn:E.
  - left. apply oid_eqb_eq. exact E.
  - right. intros H. apply oid_eqb_eq in H. congruence.
Defined.

(** ** Paths *)

Module os_path.

Definition sep : ascii := "/"%char.

(** [(p[:i], p[i:])] for [i = p.rfind('/') + 1]. *)
Fixpoint rpartition (p : string) : string * string :=
  match p with
  | EmptyString => ("", "")
  | String c r =>
      let '(h, t) := rpartition r in
      match h with
      | String _ _ => (String c h, t)
      | EmptyString => if decide (c = sep) then (String c "", t) else ("", String c t)
      end
  end.

(** [s == '/' * len(s)] *)
Fixpoint all_sep (s : string) : bool :=
  match s with
  | EmptyString => true
  | String c r => bool_decide (c = sep) && all_sep r
  end.

(** [s.rstrip('/')] *)
Fixpoint rstrip_sep (s : string) : string :=
  match s with
  | EmptyString => ""
  | String c r =>
      match rstrip_sep r with
      | EmptyString => if decide (c = sep) then "" else String c ""
      | r' => String c r'
      end
  end.

(** [os.path.split(p)] (posixpath). *)
Definition split (p : string) : string * string :=
  let '(head, tail) := rpartition p in
  (if negb (bool_decide (head = "")) && negb (all_sep head)
   then rstrip_sep head else head,
   tail).

(** [s.split('/')] *)
Fixpoint split_sep (s : string) : list string :=
  match s with
  | EmptyString => [""]
  | String c r =>
      if decide (c = sep) then "" :: split_sep r
      else match split_sep r with
           | h :: t => String c h :: t
           | [] => [String c ""]
           end
  end.

(** The segments of a slash-delimited path; the empty path is the root. *)
Definition segments (path : string) : list string :=
  if decide (path = "") then [] else split_sep path.

End os_path.

(** ** The object store: pygit2 as used by the workspace *)

Module pygit2.

(** Constants of libgit2 that the workspace mentions. *)
Definition GIT_OBJ_COMMIT : Z := 1.
Definition GIT_REF_OID : Z := 1.
Definition GIT_REF_SYMBOLIC : Z := 2.
Definition GIT_FILEMODE_TREE : Z := 16384.   (* 0o040000 *)
Definition GIT_FILEMODE_BLOB : Z := 33188.   (* 0o100644 *)

(** Bound on chains of symbolic references. *)
Definition MAX_NESTING_LEVEL : nat := 10.
Global Opaque MAX_NESTING_LEVEL.

Inductive RefTarget :=
| Direct (o : Oid)
| Symbolic (name : string).

Global Instance RefTarget_eq_dec : EqDecision RefTarget.
Proof. solve_decision. Defined.

(** A [Reference] object as handed out by [lookup_reference]: the name and
    the target it had at that moment. *)
Record Reference := mkReference {
  ref_name : string;
  ref_target : RefTarget
}.

Record Repository := mkRepository {
  objects : list Oid;
  references : gmap string RefTarget
}.

Definition set_objects (r : Repository) (os : list Oid) : Repository :=
  {| objects := os; references := references r |}.
Definition set_references (r : Repository) (rs : gmap string RefTarget) : Repository :=
  {| objects := objects r; references := rs |}.

(** Writing an object that is already stored changes nothing. *)
Definition write_object (o : Oid) (os : list Oid) : list Oid :=
  if decide (o ∈ os) then os else os ++ [o].

(** [pygit2.Repository(path)]: [KeyError] when there is no repository. *)
Definition Repository_open (fs : gmap string Repository) (path : string)
  : Outcome Repository :=
  match fs !! path with
  | Some r => Return r
  | None => Raise KeyError
  end.

(** [repo[oid]] *)
Definition getitem (r : Repository) (o : Oid) : Outcome Oid :=
  if decide (o ∈ objects r) then Return o else Raise KeyError.

(** [repo.create_blob(content)] *)
Definition create_blob (r : Repository) (content : string) : Oid * Repository :=
  (BlobId content, set_objects r (write_object (BlobId content) (objects r))).

(** *** Names *)

(** The store checks every reference name and every tree entry name it is
    given, and refuses a malformed one: [lookup_reference] and
    [create_reference] raise [InvalidSpecError] (a [ValueError]) on a name
    such as [refs/heads/a b] or [refs/heads/], and a tree builder raises
    [GitError] on an empty entry name.  The definitions of this module
    describe the store on well-formed names; the refusals are not part of
    them.  Statements about a name that the caller chooses carry
    [wellformed_name] as a hypothesis. *)

(** A letter, a digit, [_] or [-]. *)
Definition word_char (c : ascii) : bool :=
  let n := N_of_ascii c in
  ((48 <=? n) && (n <=? 57) || (65 <=? n) && (n <=? 90)
   || (97 <=? n) && (n <=? 122) || (n =? 95) || (n =? 45))%N.

(** Non-empty segments of word characters, separated by single slashes. *)
Fixpoint wellformed_from (at_start : bool) (s : string) : bool :=
  match s with
  | EmptyString => negb at_start
  | String c r =>
      if Ascii.eqb c "/"%char then negb at_start && wellformed_from true r
      else word_char c && wellformed_from false r
  end.

(** A name every version of the store accepts, as a branch name below
    [refs/heads/] and as a path of tree entries: [master], [feature/x],
    [a/b/c]; not the empty name, [a b], [a/], [a//b] or [.git]. *)
Definition wellformed_name (s : string) : bool := wellformed_from true s.

(** *** References *)

Definition lookup_reference (r : Repository) (name : string) : Outcome Reference :=
  match references r !! name with
  | Some t => Return (mkReference name t)
  | None => Raise KeyError
  end.

(** [ref.type] is the kind of the reference, not of the object it names. *)
Definition Reference_type (ref : Reference) : Z :=
  match ref_target ref with
  | Direct _ => GIT_REF_OID
  | Symbolic _ => GIT_REF_SYMBOLIC
  end.

(** [ref.oid] is only available on a direct reference. *)
Definition Reference_oid (ref : Reference) : Outcome Oid :=
  match ref_target ref with
  | Direct o => Return o
  | Symbolic _ => Raise (ValueError "oid is only available if the reference is direct")
  end.

(** The object at the end of a chain of symbolic targets. *)
Fixpoint resolve_target (fuel : nat) (rs : gmap string RefTarget) (t : RefTarget)
  : Outcome Oid :=
  match t with
  | Direct o => Return o
  | Symbolic n =>
      match fuel with
      | O => Raise GitError
      | S fuel' =>
          match rs !! n with
          | None => Raise KeyError
          | Some t' => resolve_target fuel' rs t'
          end
      end
  end.

(** [ref.get_object()]: follow symbolic targets, then load the object. *)
Definition Reference_get_object (r : Repository) (ref : Reference) : Outcome Oid :=
  match resolve_target MAX_NESTING_LEVEL (references r) (ref_target ref) with
  | Return o => getitem r o
  | other => other
  end.

(** [repo.create_reference(name, target)] without [force]: an existing name
    is refused. *)
Definition create_reference (r : Repository) (name : string) (target : RefTarget)
  : Outcome Reference * Repository :=
  match references r !! name with
  | Some _ => (Raise (ValueError "a reference with this name already exists"), r)
  | None => (Return (mkReference name target),
             set_references r (<[name := target]> (references r)))
  end.

(** [ref.delete()] *)
Definition Reference_delete (r : Repository) (ref : Reference) : Repository :=
  set_references r (delete (ref_name ref) (references r)).

(** The reference a commit is recorded on: the end of the symbolic chain
    starting at [name], created when it does not exist yet. *)
Fixpoint update_terminal (fuel : nat) (rs : gmap string RefTarget)
         (name : string) (o : Oid) : Outcome (gmap string RefTarget) :=
  match rs !! name with
  | Some (Symbolic n) =>
      match fuel with
      | O => Raise GitError
      | S fuel' => update_terminal fuel' rs n o
      end
  | _ => Return (<[name := Direct o]> rs)
  end.

(** [repo.create_commit(ref, author, committer, message, tree, parents)]:
    store the commit and point [ref] at it. *)
Definition create_commit (r : Repository) (ref : string)
           (author committer : Signature) (message : string)
           (tree : Oid) (parents : list Oid) : Outcome Oid * Repository :=
  let c := CommitId tree parents author committer message in
  match update_terminal MAX_NESTING_LEVEL (references r) ref c with
  | Return rs => (Return c, mkRepository (write_object c (objects r)) rs)
  | Raise e => (Raise e, r)
  | Diverge => (Diverge, r)
  end.

(** *** Trees *)

Definition Tree_entries (t : Oid) : TreeEntries :=
  match t with
  | TreeId es => es
  | _ => []
  end.

(** [len(tree)] *)
Definition Tree_len (t : Oid) : nat := length (Tree_entries t).

Fixpoint entries_lookup (name : string) (es : TreeEntries) : option (Oid * Z) :=
  match es with
  | [] => None
  | e :: r => if decide (fst e = name) then Some (snd e) else entries_lookup name r
  end.

(** [tree[path]] on a path already cut into segments. *)
Fixpoint entry_bypath (t : Oid) (segs : list string) : option (Oid * Z) :=
  match segs with
  | [] => None
  | s :: rest =>
      match entries_lookup s (Tree_entries t) with
      | None => None
      | Some (child, mode) =>
          match rest with
          | [] => Some (child, mode)
          | _ :: _ =>
              match child with
              | TreeId _ => entry_bypath child rest
              | _ => None
              end
          end
      end
  end.



(** [TreeBuilder]: entries are kept ordered by name; inserting an existing
    name replaces its entry. *)
Fixpoint TreeBuilder_insert (name : string) (o : Oid) (mode : Z) (es : TreeEntries)
  : TreeEntries :=
  match es with
  | [] => [(name, (o, mode))]
  | e :: r =>
      match String.compare name (fst e) with
      | Eq => (name, (o, mode)) :: r
      | Lt => (name, (o, mode)) :: e :: r
      | Gt => e :: TreeBuilder_insert name o mode r
      end
  end.

(** [builder.write()] *)
Definition TreeBuilder_write (r : Repository) (es : TreeEntries) : Oid * Repository :=
  (TreeId es, set_objects r (write_object (TreeId es) (objects r))).

(** The files below a tree, each with its path. *)
Fixpoint flatten (prefix : list string) (o : Oid) (mode : Z) {struct o}
  : list (list string * (Oid * Z)) :=
  match o with
  | TreeId es =>
      (fix go (es : TreeEntries) : list (list string * (Oid * Z)) :=
         match es with
         | [] => []
         | e :: r => flatten (prefix ++ [fst e]) (fst (snd e)) (snd (snd e)) ++ go r
         end) es
  | _ => [(prefix, (o, mode))]
  end.

Record Delta := mkDelta {
  delta_path : list string;
  delta_old : option (Oid * Z);
  delta_new : option (Oid * Z)
}.

(** [a.diff_to_tree(b)]: nothing for identical trees; otherwise one delta
    for every file of [a] that [b] does not hold unchanged, then one for
    every file of [b] that [a] does not hold unchanged and that is not
    listed already. *)
Definition Tree_diff_to_tree (a b : Oid) : list Delta :=
  if decide (a = b) then []
  else
    let changed :=
      omap (λ f, if decide (entry_bypath b (fst f) = Some (snd f)) then None
                 else Some (mkDelta (fst f) (Some (snd f)) (entry_bypath b (fst f))))
           (flatten [] a GIT_FILEMODE_TREE) in
    let added :=
      omap (λ f, if decide (entry_bypath a (fst f) = Some (snd f)) then None
                 else if decide (fst f ∈ map delta_path changed) then None
                 else Some (mkDelta (fst f) (entry_bypath a (fst f)) (Some (snd f))))
           (flatten [] b GIT_FILEMODE_TREE) in
    changed ++ added.

End pygit2.

(** ** Workspace state *)

(** The positional arguments a caller gives for an author or committer. *)
Record AuthorTuple := mkAuthor {
  au_name : string;
  au_email : string;
  au_timestamp : option Z;
  au_offset : option Z
}.

(** [gitmodel.conf] is not part of the sources at hand: the settings the
    workspace reads are taken as given. *)
Record Config := mkConfig {
  DEFAULT_GIT_USER : AuthorTuple;
  DEFAULT_TZ_OFFSET : option Z;
  LOCK_WAIT_TIMEOUT : Z;
  LOCK_WAIT_INTERVAL : Z
}.

(** The wall clock: [readings k] is what the [k]-th call of [time()] returns. *)
Record Clock := mkClock {
  readings : nat → Z;
  calls : nat
}.

Module Branch.

(** A representation of a git branch: the ref, its commit, and the
    commit's tree. *)
Record t := mk {
  ref : pygit2.Reference;
  commit : Oid;
  oid : Oid;
  tree : Oid
}.

Definition __init__ (repo : pygit2.Repository) (name : string) : Outcome t :=
  match pygit2.lookup_reference repo name with
  | Return rf =>
      match pygit2.Reference_get_object repo rf with
      | Return c =>
          match c with
          | CommitId tr _ _ _ _ => Return (mk rf c c tr)
          | _ => Raise (AttributeError "tree")
          end
      | Raise e => Raise e
      | Diverge => Diverge
      end
  | Raise e => Raise e
  | Diverge => Diverge
  end.

End Branch.

Module git.

(** Modelled from the spec: [gitmodel.utils.git.make_signature], which is
    not among the sources.  A timestamp that is not given is the current
    time, an offset that is not given is the configured one. *)
Definition make_signature (a : AuthorTuple) (default_offset : option Z) (clk : Clock)
  : Signature * Clock :=
  let offset :=
    match au_offset a with
    | Some o => o
    | None => default 0 default_offset
    end in
  match au_timestamp a with
  | Some ts => (mkSignature (au_name a) (au_email a) ts offset, clk)
  | None => (mkSignature (au_name a) (au_email a) (readings clk (calls clk)) offset,
             mkClock (readings clk) (S (calls clk)))
  end.

(** Modelled from the spec: [gitmodel.utils.git.build_path], which is not
    among the sources.  Walk the base tree along the path segments,
    descending into an existing subtree or starting an empty one; a segment
    that names something that is not a tree is a structural conflict.  At
    the end of the path the entries are merged into the subtree (equal
    names are replaced), and every tree on the way back up is written to
    the store as a new tree. *)
Fixpoint build_segments (r : pygit2.Repository) (segs : list string)
         (entries : TreeEntries) (base : TreeEntries)
  : Outcome Oid * pygit2.Repository :=
  match segs with
  | [] =>
      let '(o, r') :=
        pygit2.TreeBuilder_write r
          (foldl (λ tb e, pygit2.TreeBuilder_insert (fst e) (fst (snd e)) (snd (snd e)) tb)
                 base entries) in
      (Return o, r')
  | s :: rest =>
      let descend (sub : TreeEntries) :=
        match build_segments r rest entries sub with
        | (Return child, r1) =>
            let '(o, r2) :=
              pygit2.TreeBuilder_write r1
                (pygit2.TreeBuilder_insert s child pygit2.GIT_FILEMODE_TREE base) in
            (Return o, r2)
        | failed => failed
        end in
      match pygit2.entries_lookup s base with
      | None => descend []
      | Some (TreeId sub, _) => descend sub
      | Some (_, _) => (Raise (TreeConflict s), r)
      end
  end.

Definition build_path (r : pygit2.Repository) (path : string)
           (entries : TreeEntries) (root : option Oid)
  : Outcome Oid * pygit2.Repository :=
  match root with
  | None => build_segments r (os_path.segments path) entries []
  | Some (TreeId base) => build_segments r (os_path.segments path) entries base
  | Some _ => (Raise TypeError, r)
  end.

End git.

Module Workspace.

(** The attributes of a [Workspace] that the modelled methods use, the
    repository they refer to, and the clock of the process.  The model
    registry ([models], [register_model], [import_models]) touches none of
    them and is left out. *)
Record t := mk {
  config : Config;
  repo : pygit2.Repository;
  index : option Oid;
  head : string;
  clock : Clock
}.

Definition with_repo (r : pygit2.Repository) (ws : t) : t :=
  mk (config ws) r (index ws) (head ws) (clock ws).
Definition with_index (i : option Oid) (ws : t) : t :=
  mk (config ws) (repo ws) i (head ws) (clock ws).
Definition with_head (h : string) (ws : t) : t :=
  mk (config ws) (repo ws) (index ws) h (clock ws).
Definition with_clock (c : Clock) (ws : t) : t :=
  mk (config ws) (repo ws) (index ws) (head ws) c.

(** *** Computations over a workspace *)

Definition M (A : Type) : Type := t → Outcome A * t.

Definition ret {A} (a : A) : M A := λ ws, (Return a, ws).
Definition raise {A} (e : Exception) : M A := λ ws, (Raise e, ws).
Definition bind {A B} (m : M A) (k : A → M B) : M B :=
  λ ws, match m ws with
        | (Return a, ws') => k a ws'
        | (Raise e, ws') => (Raise e, ws')
        | (Diverge, ws') => (Diverge, ws')
        end.

Declare Scope py_scope.
Delimit Scope py_scope with py.
Notation "x <- m ;; k" := (bind m (λ x, k))
  (at level 100, m at next level, right associativity) : py_scope.
Notation "m ;; k" := (bind m (λ _, k))
  (at level 100, right associativity) : py_scope.
Local Open Scope py_scope.

Definition lift {A} (o : Outcome A) : M A := λ ws, (o, ws).

(** A call on [self.repo] that only reads the store. *)
Definition on_repo {A} (f : pygit2.Repository → Outcome A) : M A :=
  λ ws, (f (repo ws), ws).

(** A call on [self.repo] that may change the store. *)
Definition in_repo {A} (f : pygit2.Repository → Outcome A * pygit2.Repository) : M A :=
  λ ws, let '(o, r) := f (repo ws) in (o, with_repo r ws).

(** [try: m  except KeyError: handler  else: continue_] *)
Definition try_except_KeyError {A B} (m : M A) (handler : M B) (continue_ : A → M B)
  : M B :=
  λ ws, match m ws with
        | (Return a, ws') => continue_ a ws'
        | (Raise e, ws') => if is_KeyError e then handler ws' else (Raise e, ws')
        | (Diverge, ws') => (Diverge, ws')
        end.

(** [while cond: body] *)
Fixpoint while (fuel : nat) (cond : M bool) (body : M unit) : M unit :=
  match fuel with
  | O => λ ws, (Diverge, ws)
  | S fuel' => c <- cond ;; if c : bool then (body ;; while fuel' cond body) else ret tt
  end.

(** A generator function decorated with [@contextmanager], of the shape
    [enter; yield; exit], used as [with f(...): body].  When the body
    raises, the exception is thrown into the generator at its [yield]; no
    handler surrounds the [yield] in this module, so the code after it
    does not run and the exception goes on to the caller. *)
Definition with_contextmanager {R} (enter : M R) (exit : R → M unit) (body : M unit)
  : M unit :=
  λ ws, match enter ws with
        | (Return r, ws1) =>
            match body ws1 with
            | (Return _, ws2) => exit r ws2
            | (Raise e, ws2) => (Raise e, ws2)
            | (Diverge, ws2) => (Diverge, ws2)
            end
        | (Raise e, ws1) => (Raise e, ws1)
        | (Diverge, ws1) => (Diverge, ws1)
        end.

(** [time()] *)
Definition time : M Z :=
  λ ws, (Return (readings (clock ws) (calls (clock ws))),
         with_clock (mkClock (readings (clock ws)) (S (calls (clock ws)))) ws).

(** [self.<attr>] for a name that neither [__init__] sets nor the class
    defines, and [time.<attr>] on the function imported by
    [from time import time]. *)
Definition missing_attribute {A} (attr : string) : M A := raise (AttributeError attr).

Definition get_head : M string := λ ws, (Return (head ws), ws).
Definition get_index : M (option Oid) := λ ws, (Return (index ws), ws).
Definition get_config : M Config := λ ws, (Return (config ws), ws).
Definition set_head (h : string) : M unit := λ ws, (Return tt, with_head h ws).
Definition set_index (i : option Oid) : M unit := λ ws, (Return tt, with_index i ws).

(** [self.repo.TreeBuilder().write()] *)
Definition write_empty_tree : M Oid :=
  in_repo (λ r, let '(o, r') := pygit2.TreeBuilder_write r [] in (Return o, r')).

(** *** Methods *)

Definition create_blob (content : string) : M Oid :=
  in_repo (λ r, let '(o, r') := pygit2.create_blob r content in (Return o, r')).

(** The [branch] property. *)
Definition branch : M (option Branch.t) :=
  try_except_KeyError
    (λ ws, (Branch.__init__ (repo ws) (head ws), ws))
    (ret None)
    (λ b, ret (Some b)).

(** [self.branch.<attr>], evaluating the property once more. *)
Definition branch_attr {A} (attr : string) (get : Branch.t → A) : M A :=
  b <- branch ;;
  match b with
  | Some br => ret (get br)
  | None => raise (AttributeError attr)
  end.

Definition diff : M (list pygit2.Delta) :=
  b <- branch ;;
  tree <- match b with
          | Some _ => branch_attr "tree" Branch.tree
          | None =>
              empty_tree <- write_empty_tree ;;
              on_repo (λ r, pygit2.getitem r empty_tree)
          end ;;
  i <- get_index ;;
  match i with
  | Some idx => ret (pygit2.Tree_diff_to_tree tree idx)
  | None => raise TypeError
  end.

Definition has_changes : M bool :=
  d <- diff ;;
  ret (bool_decide (0 < length d)%nat).

(** Truth value of [self.index]: [None] is false, and so is a tree without
    entries, since a tree has a length. *)
Definition index_truth (i : option Oid) : bool :=
  match i with
  | None => false
  | Some tr => bool_decide (0 < pygit2.Tree_len tr)%nat
  end.

Definition update_index (ref : string) : M unit :=
  i <- get_index ;;
  pending <- (if index_truth i then has_changes else ret false) ;;
  if pending : bool then
    raise (RepositoryError "Cannot checkout a different branch with pending changes")
  else
    try_except_KeyError
      (on_repo (λ r, pygit2.lookup_reference r ref))
      (raise (RepositoryError ("Reference not found: " +:+ ref)))
      (λ _,
         set_head ref ;;
         tr <- branch_attr "tree" Branch.tree ;;
         set_index (Some tr)).

Definition create_branch (name : string) (start_point : option string) : M unit :=
  start_point <- match start_point with
                 | Some s => if decide (s = "") then get_head else ret s
                 | None => get_head
                 end ;;
  try_except_KeyError
    (on_repo (λ r, pygit2.lookup_reference r start_point))
    (raise (RepositoryError ("Reference not found: " +:+ start_point)))
    (λ start_point_ref,
       if decide (pygit2.Reference_type start_point_ref ≠ pygit2.GIT_OBJ_COMMIT) then
         raise (ValueError "Given reference must point to a commit")
       else
         let branch_ref := "refs/heads/" +:+ name in
         in_repo (λ r, pygit2.create_reference r branch_ref
                         (pygit2.ref_target start_point_ref)) ;;
         ret tt).

Definition set_branch (name : string) : M unit :=
  let ref := "refs/heads/" +:+ name in
  try_except_KeyError
    (on_repo (λ r, pygit2.lookup_reference r ref))
    (raise (RepositoryError ("Reference not found: " +:+ ref)))
    (λ _, update_index ref).

Definition add (path : string) (entries : TreeEntries) : M unit :=
  i <- get_index ;;
  o <- in_repo (λ r, git.build_path r path entries i) ;;
  tr <- on_repo (λ r, pygit2.getitem r o) ;;
  set_index (Some tr).

Definition add_blob (path : string) (content : string) (mode : Z) : M Oid :=
  let '(path, name) := os_path.split path in
  blob <- in_repo (λ r, let '(o, r') := pygit2.create_blob r content in (Return o, r')) ;;
  let entry := (name, (blob, mode)) in
  add path [entry] ;;
  ret blob.

Definition make_signature (a : AuthorTuple) (default_offset : option Z) : M Signature :=
  λ ws, let '(s, c) := git.make_signature a default_offset (clock ws) in
        (Return s, with_clock c ws).

Definition create_commit (ref : string) (tree : option Oid) (message : string)
           (author committer : option AuthorTuple) (parents : option (list Oid))
  : M Oid :=
  cfg <- get_config ;;
  let author := default (DEFAULT_GIT_USER cfg) author in
  let committer := default author committer in
  let default_offset := DEFAULT_TZ_OFFSET cfg in
  author <- make_signature author default_offset ;;
  committer <- make_signature committer default_offset ;;
  parents <- match parents with
             | Some ps => ret ps
             | None =>
                 try_except_KeyError
                   (on_repo (λ r, pygit2.lookup_reference r ref))
                   (ret [])
                   (λ parent_ref, p <- lift (pygit2.Reference_oid parent_ref) ;; ret [p])
             end ;;
  tree_oid <- match tree with
              | Some tr => ret tr
              | None => raise (AttributeError "oid")
              end ;;
  in_repo (λ r, pygit2.create_commit r ref author committer message tree_oid parents).

Definition commit (message : string) (author committer : option AuthorTuple)
  : M (option Oid) :=
  changed <- has_changes ;;
  if negb changed then ret None
  else
    b <- branch ;;
    parents <- match b with
               | Some _ => c <- branch_attr "commit" Branch.commit ;; ret [c]
               | None => ret []
               end ;;
    h <- get_head ;;
    i <- get_index ;;
    c <- create_commit h i message author committer (Some parents) ;;
    ret (Some c).

(** [with self.commit_on_success(message, author, committer): body] *)
Definition commit_on_success (message : string) (author committer : option AuthorTuple)
           (body : M unit) : M unit :=
  with_contextmanager
    (changed <- has_changes ;;
     if changed : bool then
       raise (RepositoryError
                ("Repository has pending changes. Cannot auto-commit until "
                 +:+ "pending changes have been comitted."))
     else ret tt)
    (λ _, commit message author committer ;; ret tt)
    body.

Definition locked (id : string) : M bool :=
  try_except_KeyError
    (on_repo (λ r, pygit2.lookup_reference r ("refs/locks/" +:+ id)))
    (ret false)
    (λ _, ret true).

(** The part of [lock] before its [yield]. *)
Definition lock_acquire (fuel : nat) (id : string) : M pygit2.Reference :=
  start_time <- time ;;
  while fuel (locked id)
    (now <- time ;;
     cfg <- get_config ;;
     if bool_decide (LOCK_WAIT_TIMEOUT cfg < now - start_time) then
       path <- missing_attribute "path" ;;
       raise (LockWaitTimeoutExceeded
                ("Lock wait timeout exceeded while trying to acquire lock '"
                 +:+ id +:+ "' on " +:+ path))
     else
       sleep <- missing_attribute "sleep" ;;
       (sleep : Z → M unit) (LOCK_WAIT_INTERVAL cfg)) ;;
  emptyblob <- create_blob "" ;;
  create_reference <- missing_attribute "create_reference" ;;
  (create_reference : string → Oid → M pygit2.Reference) ("refs/locks/" +:+ id) emptyblob.

(** The part of [lock] after its [yield]: [ref.delete()]. *)
Definition lock_release (ref : pygit2.Reference) : M unit :=
  in_repo (λ r, (Return tt, pygit2.Reference_delete r ref)).

(** [with self.lock(id): body] *)
Definition lock (fuel : nat) (id : string) (body : M unit) : M unit :=
  with_contextmanager (lock_acquire fuel id) lock_release body.

(** [Workspace(repo_path, initial_branch)] over the repositories [fs] of
    the file system. *)
Definition __init__ (fs : gmap string pygit2.Repository) (cfg : Config) (clk : Clock)
           (repo_path : string) (initial_branch : string) : Outcome t :=
  match pygit2.Repository_open fs repo_path with
  | Raise e =>
      if is_KeyError e
      then Raise (RepositoryNotFound ("Git repository not found at " +:+ repo_path))
      else Raise e
  | Diverge => Diverge
  | Return r =>
      let self := mk cfg r None initial_branch clk in
      let '(o, self') :=
        try_except_KeyError
          (on_repo (λ r, pygit2.lookup_reference r initial_branch))
          (o <- write_empty_tree ;;
           tr <- on_repo (λ r, pygit2.getitem r o) ;;
           set_index (Some tr))
          (λ _, update_index initial_branch)
          self in
      match o with
      | Return _ => Return self'
      | Raise e => Raise e
      | Diverge => Diverge
      end
  end.

(** [list(self.walk(sort))]: the commits the generator yields once it is
    iterated.  [repo_walk] stands for [self.repo.walk], the history
    traversal of the store. *)
Definition walk (repo_walk : pygit2.Repository → Oid → Z → list Oid) (sort : Z)
  : M (list Oid) :=
  start <- branch_attr "oid" Branch.oid ;;
  on_repo (λ r, Return (repo_walk r start sort)).

End Workspace.

(** * Derived notions and example states *)


(** The head names no reference: the branch is unborn. *)
Definition unborn (ws : Workspace.t) : Prop :=
  pygit2.references (Workspace.repo ws) !! Workspace.head ws = None.

(** The workspace after the empty tree was written to its store. *)
Definition with_empty_tree (ws : Workspace.t) : Workspace.t :=
  Workspace.with_repo
    (pygit2.set_objects (Workspace.repo ws)
       (pygit2.write_object (TreeId []) (pygit2.objects (Workspace.repo ws))))
    ws.

(** Unfold the plumbing of computations over a workspace. *)
Ltac run :=
  unfold Workspace.bind, Workspace.ret, Workspace.raise, Workspace.lift,
    Workspace.try_except_KeyError, Workspace.on_repo, Workspace.in_repo,
    Workspace.get_head, Workspace.get_index, Workspace.get_config,
    Workspace.set_head, Workspace.set_index, Workspace.write_empty_tree,
    Workspace.missing_attribute; simpl.

(** The signatures [create_commit] builds, and the clock afterwards. *)
Definition signatures (cfg : Config) (clk : Clock) (author committer : option AuthorTuple)
  : Signature * Signature * Clock :=
  let a := default (DEFAULT_GIT_USER cfg) author in
  let c := default a committer in
  let '(sa, clk1) := git.make_signature a (DEFAULT_TZ_OFFSET cfg) clk in
  let '(sc, clk2) := git.make_signature c (DEFAULT_TZ_OFFSET cfg) clk1 in
  (sa, sc, clk2).

(** The settings and the clock used in the examples. *)
Definition example_config : Config :=
  mkConfig (mkAuthor "John Doe" "jdoe@example.com" None None) None 10 1.

Definition example_clock : Clock := mkClock (λ k, 100 + Z.of_nat k) 0.

(** A store with nothing in it, at [/repo]. *)
Definition example_fs : gmap string pygit2.Repository :=
  {[ "/repo" := pygit2.mkRepository [] ∅ ]}.

(** The workspace [Workspace("/repo")] on that store: master is unborn. *)
Definition unborn_ws : Workspace.t :=
  Workspace.mk example_config (pygit2.mkRepository [TreeId []] ∅)
    (Some (TreeId [])) "refs/heads/master" example_clock.

(** The same workspace after [add_blob("a/b/c", "hello")]. *)
Definition dirty_ws : Workspace.t :=
  (Workspace.add_blob "a/b/c" "hello" pygit2.GIT_FILEMODE_BLOB unborn_ws).2.

(** And after [commit("first")]: master exists and the index is clean. *)
Definition committed_ws : Workspace.t :=
  (Workspace.commit "first" None None dirty_ws).2.

(** A further [add_blob("a/d", "world")] on top of the first commit. *)
Definition dirty_again_ws : Workspace.t :=
  (Workspace.add_blob "a/d" "world" pygit2.GIT_FILEMODE_BLOB committed_ws).2.

(** A block that adds a blob and then fails. *)
Definition failing_block : Workspace.M unit :=
  Workspace.bind (Workspace.add_blob "notes" "draft" pygit2.GIT_FILEMODE_BLOB)
    (λ _, Workspace.raise (OtherException "boom")).

(** A block that adds a blob and ends normally. *)
Definition adding_block : Workspace.M unit :=
  Workspace.bind (Workspace.add_blob "notes" "draft" pygit2.GIT_FILEMODE_BLOB)
    (λ _, Workspace.ret tt).

(** Whether the store holds the lock reference of [id]. *)
Definition lock_held (id : string) (ws : Workspace.t) : bool :=
  match pygit2.references (Workspace.repo ws) !! ("refs/locks/" +:+ id) with
  | Some _ => true
  | None => false
  end.

(** The workspace after [k] readings of the clock. *)
Definition ticked (k : nat) (ws : Workspace.t) : Workspace.t :=
  Workspace.with_clock
    (mkClock (readings (Workspace.clock ws)) (k + calls (Workspace.clock ws))) ws.

(** A workspace whose store holds the lock reference [refs/locks/job], with
    a timeout of zero. *)
Definition held_lock_ws : Workspace.t :=
  Workspace.mk
    (mkConfig (mkAuthor "John Doe" "jdoe@example.com" None None) None 0 1)
    (pygit2.mkRepository [BlobId ""] {[ "refs/locks/job" := pygit2.Direct (BlobId "") ]})
    (Some (TreeId [])) "refs/heads/master" example_clock.

(** A workspace opened while master was unborn (its index is the empty
    tree), on a store where master has since received the first commit. *)
Definition stale_ws : Workspace.t :=
  Workspace.with_repo (Workspace.repo committed_ws) unborn_ws.

(** A workspace on a store that holds a blob, a direct reference
    [refs/tags/v1] to it, and nothing else. *)
Definition tagged_blob_ws : Workspace.t :=
  Workspace.mk example_config
    (pygit2.mkRepository [BlobId "v1"; TreeId []]
       {[ "refs/tags/v1" := pygit2.Direct (BlobId "v1") ]})
    (Some (TreeId [])) "refs/heads/master" example_clock.

(** The committed workspace with a symbolic reference [HEAD] to master
    added to its store. *)
Definition symbolic_head_ws : Workspace.t :=
  Workspace.with_repo
    (pygit2.set_references (Workspace.repo committed_ws)
       (<["HEAD" := pygit2.Symbolic "refs/heads/master"]>
          (pygit2.references (Workspace.repo committed_ws))))
    committed_ws.


(** ["/".join(segs)] *)
Fixpoint join_sep (segs : list string) : string :=
  match segs with
  | [] => ""
  | s :: rest =>
      match rest with
      | [] => s
      | _ :: _ => s +:+ String os_path.sep (join_sep rest)
      end
  end.

(** No character of the string is a slash. *)
Fixpoint slash_free (s : string) : bool :=
  match s with
  | EmptyString => true
  | String c r => negb (bool_decide (c = os_path.sep)) && slash_free r
  end.

(** A path segment: not empty and without a slash. *)
Definition plain (s : string) : bool :=
  negb (bool_decide (s = "")) && slash_free s.

(** The workspace of [tagged_blob_ws] after
    [create_branch("release", "refs/tags/v1")]: the branch [release] points
    at a blob. *)
Definition blob_branch_ws : Workspace.t :=
  (Workspace.create_branch "release" (Some "refs/tags/v1") tagged_blob_ws).2.

(** Whether an object is a commit. *)
Definition is_commit (o : Oid) : bool :=
  match o with
  | CommitId _ _ _ _ _ => true
  | _ => false
  end.

(** A history traversal that follows first parents, for the examples. *)
Fixpoint first_parents (o : Oid) : list Oid :=
  match o with
  | CommitId _ ps _ _ _ =>
      o :: match ps with
           | p :: _ => first_parents p
           | [] => []
           end
  | _ => []
  end.

(** The workspace of [symbolic_head_ws] opened on [HEAD], with the blob
    [a/d] added to its index. *)
Definition on_HEAD_ws : Workspace.t :=
  (Workspace.add_blob "a/d" "world" pygit2.GIT_FILEMODE_BLOB
     (Workspace.with_head "HEAD" symbolic_head_ws)).2.

(** * Properties *)

(** ** The store *)

Lemma elem_of_write_object (o : Oid) (os : list Oid) : o ∈ pygit2.write_object o os.
Proof.
  unfold pygit2.write_object. case_decide; [done |].
  apply elem_of_app. right. apply list_elem_of_singleton. done.
Qed.

Lemma write_object_mono (o x : Oid) (os : list Oid) :
  o ∈ os → o ∈ pygit2.write_object x os.
Proof.
  intros H. unfold pygit2.write_object. case_decide; [done |].
  apply elem_of_app. by left.
Qed.

Lemma write_object_inv (o x : Oid) (os : list Oid) :
  o ∈ pygit2.write_object x os → o ∈ os ∨ o = x.
Proof.
  unfold pygit2.write_object. case_decide; [by left |].
  rewrite elem_of_app, list_elem_of_singleton. done.
Qed.

Lemma getitem_written (r : pygit2.Repository) (o : Oid) :
  pygit2.getitem (pygit2.set_objects r (pygit2.write_object o (pygit2.objects r))) o
  = Return o.
Proof.
  unfold pygit2.getitem. simpl. rewrite decide_True; [done |].
  apply elem_of_write_object.
Qed.

(** Recording a commit leaves every symbolic reference as it was. *)
Lemma update_terminal_symbolic fuel rs name o rs' k n :
  pygit2.update_terminal fuel rs name o = Return rs' →
  rs !! k = Some (pygit2.Symbolic n) →
  rs' !! k = Some (pygit2.Symbolic n).
Proof.
  revert name. induction fuel as [| fuel IH]; intros name Hup Hk; simpl in Hup.
  - destruct (rs !! name) as [[o' | n'] |] eqn:E; try discriminate;
      injection Hup as <-; rewrite lookup_insert_ne; congruence.
  - destruct (rs !! name) as [[o' | n'] |] eqn:E;
      [injection Hup as <-; rewrite lookup_insert_ne; congruence
      | eauto
      | injection Hup as <-; rewrite lookup_insert_ne; congruence].
Qed.

(** After a commit was recorded on [name], [name] resolves to that commit. *)
Lemma update_terminal_resolves fuel rs name o rs' :
  pygit2.update_terminal fuel rs name o = Return rs' →
  ∃ t, rs' !! name = Some t ∧ pygit2.resolve_target fuel rs' t = Return o.
Proof.
  revert name. induction fuel as [| fuel IH]; intros name Hup; simpl in Hup.
  - destruct (rs !! name) as [[o' | n'] |] eqn:E; try discriminate;
      injection Hup as <-; exists (pygit2.Direct o);
      rewrite lookup_insert_eq; done.
  - destruct (rs !! name) as [[o' | n'] |] eqn:E.
    + injection Hup as <-. exists (pygit2.Direct o). rewrite lookup_insert_eq. done.
    + exists (pygit2.Symbolic n'). split.
      * eapply update_terminal_symbolic; eauto.
      * destruct (IH _ Hup) as (t & Ht & Hres). simpl. rewrite Ht. done.
    + injection Hup as <-. exists (pygit2.Direct o). rewrite lookup_insert_eq. done.
Qed.


Lemma Tree_diff_to_tree_same (a : Oid) : pygit2.Tree_diff_to_tree a a = [].
Proof. unfold pygit2.Tree_diff_to_tree. rewrite decide_True; done. Qed.







(** ** Building trees *)


Section build_segments.
Variables (entries : TreeEntries).



End build_segments.


(** ** The branch view and dirty-state detection *)

Lemma positive_length {A} (l : list A) :
  bool_decide (0 < length l)%nat = bool_decide (l ≠ []).
Proof.
  apply bool_decide_ext. destruct l; simpl; split; intros H; try done; lia.
Qed.

Lemma Branch_init_unborn r h :
  pygit2.references r !! h = None → Branch.__init__ r h = Raise KeyError.
Proof. intros H. unfold Branch.__init__, pygit2.lookup_reference. rewrite H. done. Qed.

Lemma branch_resolved ws b :
  Branch.__init__ (Workspace.repo ws) (Workspace.head ws) = Return b →
  Workspace.branch ws = (Return (Some b), ws).
Proof. intros H. unfold Workspace.branch. run. rewrite H. done. Qed.

Lemma branch_unresolved ws :
  Branch.__init__ (Workspace.repo ws) (Workspace.head ws) = Raise KeyError →
  Workspace.branch ws = (Return None, ws).
Proof. intros H. unfold Workspace.branch. run. rewrite H. done. Qed.

Lemma branch_unborn ws :
  unborn ws → Workspace.branch ws = (Return None, ws).
Proof. intros H. apply branch_unresolved, Branch_init_unborn, H. Qed.

Lemma branch_attr_resolved {A} attr (get : Branch.t → A) ws b :
  Branch.__init__ (Workspace.repo ws) (Workspace.head ws) = Return b →
  Workspace.branch_attr attr get ws = (Return (get b), ws).
Proof.
  intros H. unfold Workspace.branch_attr, Workspace.bind.
  rewrite (branch_resolved _ _ H). done.
Qed.

Lemma diff_resolved ws b i :
  Branch.__init__ (Workspace.repo ws) (Workspace.head ws) = Return b →
  Workspace.index ws = Some i →
  Workspace.diff ws = (Return (pygit2.Tree_diff_to_tree (Branch.tree b) i), ws).
Proof.
  intros Hb Hi. unfold Workspace.diff, Workspace.bind at 1.
  rewrite (branch_resolved _ _ Hb). unfold Workspace.bind.
  rewrite (branch_attr_resolved _ _ _ _ Hb). run. rewrite Hi. done.
Qed.

Lemma diff_unresolved ws i :
  Branch.__init__ (Workspace.repo ws) (Workspace.head ws) = Raise KeyError →
  Workspace.index ws = Some i →
  Workspace.diff ws
  = (Return (pygit2.Tree_diff_to_tree (TreeId []) i), with_empty_tree ws).
Proof.
  intros Hb Hi. unfold Workspace.diff, Workspace.bind at 1.
  rewrite (branch_unresolved _ Hb). run.
  rewrite getitem_written. simpl. rewrite Hi. done.
Qed.

Lemma diff_unborn ws i :
  unborn ws →
  Workspace.index ws = Some i →
  Workspace.diff ws
  = (Return (pygit2.Tree_diff_to_tree (TreeId []) i), with_empty_tree ws).
Proof. intros Hb. apply diff_unresolved, Branch_init_unborn, Hb. Qed.

Lemma has_changes_resolved ws b i :
  Branch.__init__ (Workspace.repo ws) (Workspace.head ws) = Return b →
  Workspace.index ws = Some i →
  Workspace.has_changes ws
  = (Return (bool_decide (pygit2.Tree_diff_to_tree (Branch.tree b) i ≠ [])), ws).
Proof.
  intros Hb Hi. unfold Workspace.has_changes, Workspace.bind.
  rewrite (diff_resolved _ _ _ Hb Hi). unfold Workspace.ret.
  rewrite positive_length. done.
Qed.

Lemma has_changes_unresolved ws i :
  Branch.__init__ (Workspace.repo ws) (Workspace.head ws) = Raise KeyError →
  Workspace.index ws = Some i →
  Workspace.has_changes ws
  = (Return (bool_decide (pygit2.Tree_diff_to_tree (TreeId []) i ≠ [])),
     with_empty_tree ws).
Proof.
  intros Hb Hi. unfold Workspace.has_changes, Workspace.bind.
  rewrite (diff_unresolved _ _ Hb Hi). unfold Workspace.ret.
  rewrite positive_length. done.
Qed.

Lemma has_changes_unborn ws i :
  unborn ws →
  Workspace.index ws = Some i →
  Workspace.has_changes ws
  = (Return (bool_decide (pygit2.Tree_diff_to_tree (TreeId []) i ≠ [])),
     with_empty_tree ws).
Proof. intros Hb. apply has_changes_unresolved, Branch_init_unborn, Hb. Qed.


(** ** Commits *)

(** A reference that resolves can have a commit recorded on it. *)
Lemma update_terminal_total fuel rs : ∀ name t o o',
  rs !! name = Some t →
  pygit2.resolve_target fuel rs t = Return o' →
  ∃ rs', pygit2.update_terminal fuel rs name o = Return rs'.
Proof.
  induction fuel as [| fuel IH]; intros name t o o' Hn Hres.
  - destruct t as [x | n]; simpl in *; [| discriminate]. rewrite Hn. eauto.
  - destruct t as [x | n]; simpl in *; rewrite Hn; [eauto |].
    destruct (rs !! n) as [t' |] eqn:E; [| discriminate]. eauto.
Qed.

Lemma Branch_init_resolves r name b :
  Branch.__init__ r name = Return b →
  ∃ t, pygit2.references r !! name = Some t
       ∧ pygit2.resolve_target pygit2.MAX_NESTING_LEVEL (pygit2.references r) t
         = Return (Branch.commit b).
Proof.
  unfold Branch.__init__, pygit2.lookup_reference, pygit2.Reference_get_object.
  destruct (pygit2.references r !! name) as [t |]; [| discriminate]. simpl.
  destruct (pygit2.resolve_target pygit2.MAX_NESTING_LEVEL (pygit2.references r) t)
    as [o | e |] eqn:E; try discriminate.
  unfold pygit2.getitem. case_decide; [| discriminate].
  destruct o; try discriminate. intros [= <-]. exists t. done.
Qed.

(** Once a commit was recorded on [name] and stored, the branch view of
    [name] is that commit and its tree. *)
Lemma Branch_init_recorded rs name tr ps sa sc msg rs' os :
  let c := CommitId tr ps sa sc msg in
  pygit2.update_terminal pygit2.MAX_NESTING_LEVEL rs name c = Return rs' →
  c ∈ os →
  ∃ rf, Branch.__init__ (pygit2.mkRepository os rs') name = Return (Branch.mk rf c c tr).
Proof.
  intros c Hup Hin.
  destruct (update_terminal_resolves _ _ _ _ _ Hup) as (t & Ht & Hres).
  exists (pygit2.mkReference name t).
  unfold Branch.__init__, pygit2.lookup_reference, pygit2.Reference_get_object. simpl.
  rewrite Ht. simpl. fold c. rewrite Hres.
  unfold pygit2.getitem. simpl. rewrite decide_True; done.
Qed.

Lemma create_commit_eval ws ref i msg a c ps sa sc clk2 rs :
  signatures (Workspace.config ws) (Workspace.clock ws) a c = (sa, sc, clk2) →
  pygit2.update_terminal pygit2.MAX_NESTING_LEVEL
    (pygit2.references (Workspace.repo ws)) ref (CommitId i ps sa sc msg) = Return rs →
  Workspace.create_commit ref (Some i) msg a c (Some ps) ws
  = (Return (CommitId i ps sa sc msg),
     Workspace.mk (Workspace.config ws)
       (pygit2.mkRepository
          (pygit2.write_object (CommitId i ps sa sc msg)
             (pygit2.objects (Workspace.repo ws))) rs)
       (Workspace.index ws) (Workspace.head ws) clk2).
Proof.
  unfold signatures, Workspace.create_commit, Workspace.make_signature. run.
  destruct (git.make_signature _ _ (Workspace.clock ws)) as [sa' clk1]. simpl.
  destruct (git.make_signature _ _ clk1) as [sc' clk2']. simpl.
  intros [= -> -> ->] Hup. unfold pygit2.create_commit. rewrite Hup. done.
Qed.

Lemma bind_Return {A B} (m : Workspace.M A) (k : A → Workspace.M B) ws a ws' :
  m ws = (Return a, ws') → Workspace.bind m k ws = k a ws'.
Proof. intros H. unfold Workspace.bind. rewrite H. done. Qed.

Lemma bind_Raise {A B} (m : Workspace.M A) (k : A → Workspace.M B) ws e ws' :
  m ws = (Raise e, ws') → Workspace.bind m k ws = (Raise e, ws').
Proof. intros H. unfold Workspace.bind. rewrite H. done. Qed.

(** [has_changes] leaves the workspace as it is, except that on an unborn or
    unresolved branch the empty tree it compares with is written to the
    store. *)
Lemma has_changes_frame ws out ws1 :
  Workspace.has_changes ws = (out, ws1) → ws1 = ws ∨ ws1 = with_empty_tree ws.
Proof.
  unfold Workspace.has_changes, Workspace.diff, Workspace.branch_attr, Workspace.branch.
  run.
  destruct (Branch.__init__ (Workspace.repo ws) (Workspace.head ws)) as [b | e |] eqn:E;
    simpl.
  - rewrite E. simpl. destruct (Workspace.index ws); intros [= <- <-]; by left.
  - destruct (is_KeyError e); simpl.
    + rewrite getitem_written. simpl.
      destruct (Workspace.index ws); intros [= <- <-]; by right.
    + intros [= <- <-]; by left.
  - intros [= <- <-]; by left.
Qed.


Lemma with_empty_tree_objects ws x :
  x ∈ pygit2.objects (Workspace.repo (with_empty_tree ws)) →
  x ∈ pygit2.objects (Workspace.repo ws) ∨ x = TreeId [].
Proof. simpl. apply write_object_inv. Qed.

Lemma commit_clean message author committer ws ws1 :
  Workspace.has_changes ws = (Return false, ws1) →
  Workspace.commit message author committer ws = (Return None, ws1).
Proof. intros H. unfold Workspace.commit. rewrite (bind_Return _ _ _ _ _ H). done. Qed.

(** [commit] on a resolved branch with pending changes. *)
Lemma commit_resolved message author committer ws b i sa sc clk2 :
  Branch.__init__ (Workspace.repo ws) (Workspace.head ws) = Return b →
  Workspace.index ws = Some i →
  pygit2.Tree_diff_to_tree (Branch.tree b) i ≠ [] →
  signatures (Workspace.config ws) (Workspace.clock ws) author committer = (sa, sc, clk2) →
  let c := CommitId i [Branch.commit b] sa sc message in
  ∃ rs,
    pygit2.update_terminal pygit2.MAX_NESTING_LEVEL
      (pygit2.references (Workspace.repo ws)) (Workspace.head ws) c = Return rs
    ∧ Workspace.commit message author committer ws
      = (Return (Some c),
         Workspace.mk (Workspace.config ws)
           (pygit2.mkRepository
              (pygit2.write_object c (pygit2.objects (Workspace.repo ws))) rs)
           (Some i) (Workspace.head ws) clk2).
Proof.
  intros Hb Hi Hd Hs c.
  destruct (Branch_init_resolves _ _ _ Hb) as (t & Ht & Hres).
  destruct (update_terminal_total _ _ _ _ c _ Ht Hres) as (rs & Hup).
  exists rs. split; [exact Hup |].
  unfold Workspace.commit.
  rewrite (bind_Return _ _ _ _ _ (has_changes_resolved _ _ _ Hb Hi)).
  rewrite bool_decide_eq_true_2 by done. simpl.
  rewrite (bind_Return _ _ _ _ _ (branch_resolved _ _ Hb)).
  unfold Workspace.bind at 1. unfold Workspace.bind at 1.
  rewrite (branch_attr_resolved _ _ _ _ Hb). unfold Workspace.ret at 1.
  unfold Workspace.bind at 1, Workspace.get_head.
  unfold Workspace.bind at 1, Workspace.get_index.
  rewrite Hi.
  rewrite (bind_Return _ _ _ _ _ (create_commit_eval _ _ _ _ _ _ _ _ _ _ _ Hs Hup)).
  unfold Workspace.ret. rewrite Hi. done.
Qed.


(** ** Claims *)



(** ** Construction *)

Lemma init_eval fs cfg clk repo_path initial_branch :
  Workspace.__init__ fs cfg clk repo_path initial_branch
  = match fs !! repo_path with
    | None => Raise (RepositoryNotFound ("Git repository not found at " +:+ repo_path))
    | Some r =>
        match pygit2.references r !! initial_branch with
        | None =>
            Return (Workspace.mk cfg
                      (pygit2.set_objects r (pygit2.write_object (TreeId []) (pygit2.objects r)))
                      (Some (TreeId [])) initial_branch clk)
        | Some _ =>
            match Branch.__init__ r initial_branch with
            | Return b => Return (Workspace.mk cfg r (Some (Branch.tree b)) initial_branch clk)
            | Raise e => Raise (if is_KeyError e then AttributeError "tree" else e)
            | Diverge => Diverge
            end
        end
    end.
Proof.
  unfold Workspace.__init__, pygit2.Repository_open.
  destruct (fs !! repo_path) as [r |]; [| done].
  unfold Workspace.update_index, Workspace.branch_attr, Workspace.branch. run.
  unfold pygit2.lookup_reference at 1.
  destruct (pygit2.references r !! initial_branch) as [t |] eqn:Ht; simpl.
  - unfold pygit2.lookup_reference at 1. rewrite Ht. simpl.
    destruct (Branch.__init__ r initial_branch) as [b | e |]; simpl; [done | | done].
    destruct (is_KeyError e); done.
  - rewrite getitem_written. done.
Qed.

(** ** Inversion of [commit] *)

Lemma create_commit_inv ws ref tree msg a c ps o ws2 :
  Workspace.create_commit ref tree msg a c (Some ps) ws = (Return o, ws2) →
  ∃ i sa sc clk2 rs,
    tree = Some i
    ∧ o = CommitId i ps sa sc msg
    ∧ pygit2.update_terminal pygit2.MAX_NESTING_LEVEL
        (pygit2.references (Workspace.repo ws)) ref o = Return rs
    ∧ ws2 = Workspace.mk (Workspace.config ws)
              (pygit2.mkRepository (pygit2.write_object o (pygit2.objects (Workspace.repo ws))) rs)
              (Workspace.index ws) (Workspace.head ws) clk2.
Proof.
  unfold Workspace.create_commit, Workspace.make_signature. run.
  destruct (git.make_signature _ _ (Workspace.clock ws)) as [sa clk1]. simpl.
  destruct (git.make_signature _ _ clk1) as [sc clk2]. simpl.
  destruct tree as [i |]; simpl; [| discriminate].
  unfold pygit2.create_commit.
  destruct (pygit2.update_terminal _ _ ref _) as [rs | e |] eqn:Hup; simpl;
    try discriminate.
  intros [= <- <-]. exists i, sa, sc, clk2, rs. done.
Qed.

Lemma branch_state ws out ws1 : Workspace.branch ws = (out, ws1) → ws1 = ws.
Proof.
  unfold Workspace.branch. run.
  destruct (Branch.__init__ _ _) as [b | e |]; simpl;
    [| destruct (is_KeyError e) |]; intros [= _ <-]; done.
Qed.

Lemma commit_inv msg a c ws o ws2 :
  Workspace.commit msg a c ws = (Return (Some o), ws2) →
  ∃ i ps sa sc clk2 rs ws1,
    (ws1 = ws ∨ ws1 = with_empty_tree ws)
    ∧ Workspace.index ws = Some i
    ∧ o = CommitId i ps sa sc msg
    ∧ pygit2.update_terminal pygit2.MAX_NESTING_LEVEL
        (pygit2.references (Workspace.repo ws)) (Workspace.head ws) o = Return rs
    ∧ ws2 = Workspace.mk (Workspace.config ws)
              (pygit2.mkRepository (pygit2.write_object o (pygit2.objects (Workspace.repo ws1))) rs)
              (Some i) (Workspace.head ws) clk2.
Proof.
  unfold Workspace.commit. unfold Workspace.bind at 1.
  destruct (Workspace.has_changes ws) as [[changed | e |] ws1] eqn:Hhc; try discriminate.
  destruct changed; simpl; [| discriminate].
  pose proof (has_changes_frame _ _ _ Hhc) as Hws1.
  unfold Workspace.bind at 1.
  destruct (Workspace.branch ws1) as [[bo | e |] ws1'] eqn:Hbr; try discriminate.
  apply branch_state in Hbr as ->.
  unfold Workspace.bind at 1.
  match goal with
  | |- context [match ?m ws1 with _ => _ end] =>
      assert (Hparents : ∀ out w, m ws1 = (out, w) → w = ws1)
  end.
  { intros out w. destruct bo as [b |].
    - unfold Workspace.bind, Workspace.branch_attr, Workspace.bind.
      destruct (Workspace.branch ws1) as [[[b' |] | e |] w'] eqn:Hbr;
        apply branch_state in Hbr as ->; run; intros [= _ <-]; done.
    - run. intros [= _ <-]. done. }
  match goal with
  | |- context [match ?m ws1 with _ => _ end] =>
      destruct (m ws1) as [[ps | e |] w] eqn:Hps; try discriminate;
      pose proof (Hparents _ _ eq_refl) as Hw; subst w
  end.
  run.
  destruct (Workspace.create_commit _ _ _ _ _ _ ws1) as [[o' | e |] w] eqn:Hcc;
    try discriminate.
  intros [= -> ->].
  destruct (create_commit_inv _ _ _ _ _ _ _ _ _ Hcc) as (i & sa & sc & clk2 & rs & Hi & Ho & Hup & Hw).
  exists i, ps, sa, sc, clk2, rs, ws1.
  destruct Hws1 as [-> | ->]; simpl in *; rewrite Hi in *; auto 10.
Qed.

(** After a commit was created the index is clean. *)
Lemma has_changes_after_commit msg a c ws o ws2 :
  Workspace.commit msg a c ws = (Return (Some o), ws2) →
  Workspace.has_changes ws2 = (Return false, ws2).
Proof.
  intros H.
  destruct (commit_inv _ _ _ _ _ _ H) as (i & ps & sa & sc & clk2 & rs & ws1 & _ & Hi & -> & Hup & ->).
  destruct (Branch_init_recorded _ _ i ps sa sc msg rs
              (pygit2.write_object (CommitId i ps sa sc msg) (pygit2.objects (Workspace.repo ws1)))
              Hup (elem_of_write_object _ _)) as [rf Hb].
  erewrite has_changes_resolved; [| exact Hb | done]. simpl.
  rewrite Tree_diff_to_tree_same. rewrite bool_decide_eq_false_2; [done |]. auto.
Qed.

(** C9: [has_changes()] is true exactly when [diff()] is not empty, where
    [diff()] compares the tree of the resolved branch, or the empty tree when
    the branch is unborn, with the index.  It is false right after a
    workspace was constructed on an existing branch and right after a
    [commit()] that created a commit. *)
Theorem has_changes_iff_diff_nonempty :
  (∀ ws,
     Workspace.has_changes ws
     = match Workspace.diff ws with
       | (Return d, ws1) => (Return (bool_decide (d ≠ [])), ws1)
       | (Raise e, ws1) => (Raise e, ws1)
       | (Diverge, ws1) => (Diverge, ws1)
       end)
  ∧ (∀ ws b i,
       Branch.__init__ (Workspace.repo ws) (Workspace.head ws) = Return b →
       Workspace.index ws = Some i →
       Workspace.diff ws = (Return (pygit2.Tree_diff_to_tree (Branch.tree b) i), ws))
  ∧ (∀ ws i,
       unborn ws →
       Workspace.index ws = Some i →
       Workspace.diff ws
       = (Return (pygit2.Tree_diff_to_tree (TreeId []) i), with_empty_tree ws))
  ∧ (∀ fs cfg clk repo_path initial_branch ws,
       Workspace.__init__ fs cfg clk repo_path initial_branch = Return ws →
       is_Some (pygit2.references (Workspace.repo ws) !! initial_branch) →
       Workspace.has_changes ws = (Return false, ws))
  ∧ (∀ message author committer ws c ws2,
       Workspace.commit message author committer ws = (Return (Some c), ws2) →
       Workspace.has_changes ws2 = (Return false, ws2)).
Proof.
  repeat split.
  - intros ws. unfold Workspace.has_changes, Workspace.bind.
    destruct (Workspace.diff ws) as [[d | e |] ws1]; try done.
    unfold Workspace.ret. rewrite positive_length. done.
  - intros ws b i. apply diff_resolved.
  - intros ws i. apply diff_unborn.
  - intros fs cfg clk repo_path initial_branch ws. rewrite init_eval.
    destruct (fs !! repo_path) as [r |]; [| discriminate].
    destruct (pygit2.references r !! initial_branch) as [t |] eqn:Ht.
    + destruct (Branch.__init__ r initial_branch) as [b | e |] eqn:Hb; try discriminate.
      intros [= <-] _.
      erewrite has_changes_resolved; [| exact Hb | done]. simpl.
      rewrite Tree_diff_to_tree_same. rewrite bool_decide_eq_false_2; [done |]. auto.
    + intros [= <-]. simpl. rewrite Ht. intros [? ?]. discriminate.
  - intros message author committer ws c ws2. apply has_changes_after_commit.
Qed.

Lemma has_changes_iff_diff_nonempty_witness :
  Workspace.has_changes committed_ws = (Return false, committed_ws)
  ∧ (∃ ws,
       Workspace.__init__ {[ "/repo" := Workspace.repo committed_ws ]}
         example_config example_clock "/repo" "refs/heads/master" = Return ws
       ∧ Workspace.has_changes ws = (Return false, ws)).
Proof.
  destruct has_changes_iff_diff_nonempty as (_ & _ & _ & Hinit & Hcommit).
  split.
  - destruct (Workspace.commit "first" None None dirty_ws) as [[[c |] | e |] ws2] eqn:E;
      try (vm_compute in E; discriminate).
    replace committed_ws with ws2 by (unfold committed_ws; rewrite E; done).
    exact (Hcommit _ _ _ _ _ _ E).
  - destruct (Workspace.__init__ {[ "/repo" := Workspace.repo committed_ws ]}
                example_config example_clock "/repo" "refs/heads/master")
      as [ws | e |] eqn:E; try (vm_compute in E; discriminate).
    exists ws. split; [done |].
    apply (Hinit _ _ _ _ _ _ E).
    assert (Hrepo : Workspace.repo ws = Workspace.repo committed_ws).
    { vm_compute in E. injection E as <-. vm_compute. reflexivity. }
    rewrite Hrepo. vm_compute. eauto.
Defined.



(** C6: constructing a workspace fails with [RepositoryNotFound] when the
    store cannot be located; when the head reference resolves to a branch the
    index is that branch's tree; when there is no head reference the index is
    the freshly written empty tree. *)
Theorem init_three_cases fs cfg clk repo_path initial_branch :
  (pygit2.Repository_open fs repo_path = Raise KeyError →
   Workspace.__init__ fs cfg clk repo_path initial_branch
   = Raise (RepositoryNotFound ("Git repository not found at " +:+ repo_path)))
  ∧ (∀ r b,
       pygit2.Repository_open fs repo_path = Return r →
       Branch.__init__ r initial_branch = Return b →
       Workspace.__init__ fs cfg clk repo_path initial_branch
       = Return (Workspace.mk cfg r (Some (Branch.tree b)) initial_branch clk))
  ∧ (∀ r,
       pygit2.Repository_open fs repo_path = Return r →
       pygit2.lookup_reference r initial_branch = Raise KeyError →
       Workspace.__init__ fs cfg clk repo_path initial_branch
       = Return (Workspace.mk cfg
                   (pygit2.set_objects r (pygit2.write_object (TreeId []) (pygit2.objects r)))
                   (Some (TreeId [])) initial_branch clk)
         ∧ pygit2.Tree_entries (TreeId []) = []).
Proof.
  rewrite init_eval. unfold pygit2.Repository_open, pygit2.lookup_reference.
  destruct (fs !! repo_path) as [r |]; (split; [| split]); try done.
  - intros r' b [= <-] Hb. rewrite Hb.
    destruct (Branch_init_resolves _ _ _ Hb) as (t & -> & _). done.
  - intros r' [= <-]. destruct (pygit2.references r !! initial_branch); done.
Qed.

Lemma init_three_cases_witness :
  Workspace.__init__ example_fs example_config example_clock "/nowhere" "refs/heads/master"
  = Raise (RepositoryNotFound "Git repository not found at /nowhere")
  ∧ Workspace.__init__ example_fs example_config example_clock "/repo" "refs/heads/master"
    = Return unborn_ws
  ∧ (∃ b,
       Branch.__init__ (Workspace.repo committed_ws) "refs/heads/master" = Return b
       ∧ Workspace.__init__ {[ "/repo" := Workspace.repo committed_ws ]}
           example_config example_clock "/repo" "refs/heads/master"
         = Return (Workspace.mk example_config (Workspace.repo committed_ws)
                     (Some (Branch.tree b)) "refs/heads/master" example_clock)).
Proof.
  split; [| split].
  - apply (init_three_cases example_fs example_config example_clock
             "/nowhere" "refs/heads/master").
    vm_compute. reflexivity.
  - destruct (init_three_cases example_fs example_config example_clock
                "/repo" "refs/heads/master") as (_ & _ & H).
    destruct (H (pygit2.mkRepository [] ∅)) as [-> _]; vm_compute; reflexivity.
  - destruct (Branch.__init__ (Workspace.repo committed_ws) "refs/heads/master")
      as [b | e |] eqn:Hb; try (vm_compute in Hb; discriminate).
    exists b. split; [done |].
    apply (init_three_cases {[ "/repo" := Workspace.repo committed_ws ]}
             example_config example_clock "/repo" "refs/heads/master");
      [vm_compute; reflexivity | exact Hb].
Defined.

(** ** Scoped blocks *)

(** When the block of a [with] statement raises, the code after the [yield]
    of the context manager is not run. *)
Lemma with_contextmanager_raise {R} (enter : Workspace.M R) (exit : R → Workspace.M unit)
      (body : Workspace.M unit) ws r ws1 e ws2 :
  enter ws = (Return r, ws1) →
  body ws1 = (Raise e, ws2) →
  Workspace.with_contextmanager enter exit body ws = (Raise e, ws2).
Proof. intros He Hb. unfold Workspace.with_contextmanager. rewrite He, Hb. done. Qed.

Lemma with_contextmanager_return {R} (enter : Workspace.M R) (exit : R → Workspace.M unit)
      (body : Workspace.M unit) ws r ws1 ws2 :
  enter ws = (Return r, ws1) →
  body ws1 = (Return tt, ws2) →
  Workspace.with_contextmanager enter exit body ws = exit r ws2.
Proof. intros He Hb. unfold Workspace.with_contextmanager. rewrite He, Hb. done. Qed.

Lemma with_contextmanager_refused {R} (enter : Workspace.M R) (exit : R → Workspace.M unit)
      (body : Workspace.M unit) ws e ws1 :
  enter ws = (Raise e, ws1) →
  Workspace.with_contextmanager enter exit body ws = (Raise e, ws1).
Proof. intros He. unfold Workspace.with_contextmanager. rewrite He. done. Qed.

(** C5: [commit_on_success] raises [RepositoryError] on entry, without
    running the block, when [has_changes()] is true.  Entered cleanly, a
    block that ends normally is followed by [commit] with the given message,
    author and committer; a block that raises is followed by nothing: its
    exception goes to the caller and the workspace stays as the block left
    it. *)
Theorem commit_on_success_commits_or_propagates
        (message : string) (author committer : option AuthorTuple)
        (body : Workspace.M unit) (ws : Workspace.t) :
  (∀ ws1,
     Workspace.has_changes ws = (Return true, ws1) →
     Workspace.commit_on_success message author committer body ws
     = (Raise (RepositoryError
                 ("Repository has pending changes. Cannot auto-commit until "
                  +:+ "pending changes have been comitted.")), ws1)
     ∧ (ws1 = ws ∨ ws1 = with_empty_tree ws))
  ∧ (∀ ws1 ws2,
       Workspace.has_changes ws = (Return false, ws1) →
       body ws1 = (Return tt, ws2) →
       Workspace.commit_on_success message author committer body ws
       = match Workspace.commit message author committer ws2 with
         | (Return _, ws3) => (Return tt, ws3)
         | (Raise e, ws3) => (Raise e, ws3)
         | (Diverge, ws3) => (Diverge, ws3)
         end)
  ∧ (∀ ws1 e ws2,
       Workspace.has_changes ws = (Return false, ws1) →
       body ws1 = (Raise e, ws2) →
       Workspace.commit_on_success message author committer body ws = (Raise e, ws2)).
Proof.
  unfold Workspace.commit_on_success. split; [| split].
  - intros ws1 H. split; [| by eapply has_changes_frame].
    apply with_contextmanager_refused. rewrite (bind_Return _ _ _ _ _ H). done.
  - intros ws1 ws2 H Hbody.
    erewrite with_contextmanager_return;
      [| rewrite (bind_Return _ _ _ _ _ H); done | exact Hbody].
    unfold Workspace.bind, Workspace.ret.
    destruct (Workspace.commit message author committer ws2) as [[o | e |] ws3]; done.
  - intros ws1 e ws2 H Hbody.
    eapply with_contextmanager_raise; [| exact Hbody].
    rewrite (bind_Return _ _ _ _ _ H). done.
Qed.

Lemma commit_on_success_commits_or_propagates_witness :
  (∃ ws1 msg,
     Workspace.commit_on_success "m" None None adding_block dirty_ws
     = (Raise (RepositoryError msg), ws1)
     ∧ Workspace.index ws1 = Workspace.index dirty_ws)
  ∧ (∃ ws2,
       Workspace.commit_on_success "m" None None failing_block committed_ws
       = (Raise (OtherException "boom"), ws2)
       ∧ Workspace.index ws2 ≠ Workspace.index committed_ws
       ∧ pygit2.references (Workspace.repo ws2)
         = pygit2.references (Workspace.repo committed_ws))
  ∧ (∃ ws3 c,
       Workspace.commit_on_success "m" None None adding_block committed_ws
       = (Return tt, ws3)
       ∧ Branch.__init__ (Workspace.repo ws3) (Workspace.head ws3) = Return c
       ∧ Some (Branch.tree c) = Workspace.index ws3
       ∧ Workspace.index ws3 ≠ Workspace.index committed_ws).
Proof.
  split; [| split].
  - destruct (commit_on_success_commits_or_propagates "m" None None adding_block dirty_ws)
      as (H & _ & _).
    destruct (Workspace.has_changes dirty_ws) as [[[|] | e |] ws1] eqn:E;
      try (vm_compute in E; discriminate).
    destruct (H ws1 eq_refl) as [Hc Hws]. eexists ws1, _. split; [exact Hc |].
    destruct Hws as [-> | ->]; done.
  - destruct (commit_on_success_commits_or_propagates "m" None None failing_block committed_ws)
      as (_ & _ & H).
    destruct (failing_block committed_ws) as [[[] | e |] ws2] eqn:E;
      try (vm_compute in E; discriminate).
    assert (He : e = OtherException "boom") by (vm_compute in E; congruence).
    subst e. exists ws2. split.
    + apply (H committed_ws). { vm_compute. reflexivity. } exact E.
    + vm_compute in E. injection E as <-. vm_compute. split; [discriminate | reflexivity].
  - destruct (commit_on_success_commits_or_propagates "m" None None adding_block committed_ws)
      as (_ & H & _).
    destruct (adding_block committed_ws) as [[[] | e |] ws2] eqn:E;
      try (vm_compute in E; discriminate).
    rewrite (H committed_ws ws2); [| vm_compute; reflexivity | exact E].
    vm_compute in E. injection E as <-.
    vm_compute. eexists _, _. split; [reflexivity |].
    split; [reflexivity |]. split; [reflexivity | discriminate].
Defined.

(** ** Locks *)

Lemma locked_eval id ws : Workspace.locked id ws = (Return (lock_held id ws), ws).
Proof.
  unfold Workspace.locked, pygit2.lookup_reference, lock_held. run.
  destruct (pygit2.references (Workspace.repo ws) !! _) as [t |]; done.
Qed.

(** What acquiring a lock amounts to: it never gets to its [yield]. *)
Lemma lock_acquire_eval fuel id ws :
  let t0 := readings (Workspace.clock ws) (calls (Workspace.clock ws)) in
  let t1 := readings (Workspace.clock ws) (S (calls (Workspace.clock ws))) in
  Workspace.lock_acquire (S fuel) id ws
  = if lock_held id ws
    then
      if bool_decide (LOCK_WAIT_TIMEOUT (Workspace.config ws) < t1 - t0)
      then (Raise (AttributeError "path"), ticked 2 ws)
      else (Raise (AttributeError "sleep"), ticked 2 ws)
    else
      (Raise (AttributeError "create_reference"),
       Workspace.with_repo (pygit2.create_blob (Workspace.repo ws) "").2 (ticked 1 ws)).
Proof.
  intros t0 t1.
  unfold Workspace.lock_acquire, Workspace.locked, Workspace.time, Workspace.create_blob,
    lock_held, ticked, pygit2.lookup_reference.
  run.
  destruct (pygit2.references (Workspace.repo ws) !! ("refs/locks/" +:+ id)) eqn:E;
    run; rewrite E; simpl; [| reflexivity].
  fold t0 t1. destruct (bool_decide (LOCK_WAIT_TIMEOUT (Workspace.config ws) < t1 - t0));
    reflexivity.
Qed.

(** C1 (as the code behaves): for every lock id, every block and every
    state, [with self.lock(id): block] raises [AttributeError] before the
    block is entered; whatever the block is, the outcome is the same, and no
    reference is created or deleted. *)
Theorem lock_never_enters_body (fuel : nat) (id : string) (body : Workspace.M unit)
        (ws : Workspace.t) :
  ∃ attr ws1,
    Workspace.lock (S fuel) id body ws = (Raise (AttributeError attr), ws1)
    ∧ pygit2.references (Workspace.repo ws1) = pygit2.references (Workspace.repo ws)
    ∧ Workspace.index ws1 = Workspace.index ws
    ∧ (∀ body', Workspace.lock (S fuel) id body' ws = Workspace.lock (S fuel) id body ws).
Proof.
  unfold Workspace.lock, Workspace.with_contextmanager.
  rewrite lock_acquire_eval.
  destruct (lock_held id ws); [destruct (bool_decide (_ < _)) |];
    eexists _, _; repeat split; reflexivity.
Qed.

(** C2 (as the code behaves): when the lock is held, [lock(id)] raises
    [AttributeError] at its first poll: on [self.path] when the wait already
    exceeds [LOCK_WAIT_TIMEOUT], on [time.sleep] otherwise.  It never raises
    [LockWaitTimeoutExceeded]; the store is left as it was. *)
Theorem lock_held_raises_AttributeError (fuel : nat) (id : string)
        (body : Workspace.M unit) (ws : Workspace.t) :
  Workspace.locked id ws = (Return true, ws) →
  let t0 := readings (Workspace.clock ws) (calls (Workspace.clock ws)) in
  let t1 := readings (Workspace.clock ws) (S (calls (Workspace.clock ws))) in
  ∃ ws1,
    Workspace.lock (S fuel) id body ws
    = (Raise (AttributeError
                (if bool_decide (LOCK_WAIT_TIMEOUT (Workspace.config ws) < t1 - t0)
                 then "path" else "sleep")), ws1)
    ∧ Workspace.repo ws1 = Workspace.repo ws.
Proof.
  rewrite locked_eval. intros [= Hheld] t0 t1.
  unfold Workspace.lock, Workspace.with_contextmanager.
  rewrite lock_acquire_eval. rewrite Hheld. fold t0 t1.
  destruct (bool_decide (_ < _)); eexists; split; reflexivity.
Qed.

Lemma lock_held_raises_AttributeError_witness :
  Workspace.locked "job" held_lock_ws = (Return true, held_lock_ws)
  ∧ ∃ ws1,
      Workspace.lock 5 "job" (Workspace.ret tt) held_lock_ws
      = (Raise (AttributeError "path"), ws1)
      ∧ Workspace.repo ws1 = Workspace.repo held_lock_ws.
Proof.
  assert (H : Workspace.locked "job" held_lock_ws = (Return true, held_lock_ws))
    by (vm_compute; reflexivity).
  split; [exact H |].
  exact (lock_held_raises_AttributeError 4 "job" (Workspace.ret tt) held_lock_ws H).
Defined.

(** ** Branches *)

(** C3 (as the code behaves): on a workspace whose index is the empty tree
    while its branch holds a file, [has_changes()] is true and yet
    [set_branch] raises nothing: the test [self.index and
    self.has_changes()] stops at the empty index, and head and index are
    replaced. *)
Theorem set_branch_ignores_changes_on_empty_index :
  Workspace.index stale_ws = Some (TreeId [])
  ∧ (Workspace.has_changes stale_ws).1 = Return true
  ∧ ∃ ws1,
      Workspace.set_branch "master" stale_ws = (Return tt, ws1)
      ∧ Workspace.index ws1 = Workspace.index committed_ws
      ∧ Workspace.index ws1 ≠ Workspace.index stale_ws.
Proof.
  split; [reflexivity |]. split; [vm_compute; reflexivity |].
  destruct (Workspace.set_branch "master" stale_ws) as [[[] | e |] ws1] eqn:E;
    try (vm_compute in E; discriminate).
  exists ws1. split; [reflexivity |].
  vm_compute in E. injection E as <-. vm_compute. split; [reflexivity | discriminate].
Qed.

(** C7 (as the code behaves): [create_branch] compares the kind of the
    reference ([ref.type], direct or symbolic) with the object type
    [GIT_OBJ_COMMIT].  A direct reference to a blob passes the test and a
    branch pointing at the blob is created; a symbolic reference is refused
    with [ValueError] although it resolves to a commit. *)
Theorem create_branch_checks_reference_kind :
  (∃ ws1,
     Workspace.create_branch "release" (Some "refs/tags/v1") tagged_blob_ws
     = (Return tt, ws1)
     ∧ pygit2.references (Workspace.repo ws1) !! "refs/heads/release"
       = Some (pygit2.Direct (BlobId "v1")))
  ∧ (∃ b,
       Branch.__init__ (Workspace.repo symbolic_head_ws) "HEAD" = Return b
       ∧ Workspace.create_branch "release" (Some "HEAD") symbolic_head_ws
         = (Raise (ValueError "Given reference must point to a commit"), symbolic_head_ws)).
Proof.
  split.
  - destruct (Workspace.create_branch "release" (Some "refs/tags/v1") tagged_blob_ws)
      as [[[] | e |] ws1] eqn:E; try (vm_compute in E; discriminate).
    exists ws1. split; [reflexivity |].
    vm_compute in E. injection E as <-. vm_compute. reflexivity.
  - destruct (Branch.__init__ (Workspace.repo symbolic_head_ws) "HEAD") as [b | e |] eqn:E;
      try (vm_compute in E; discriminate).
    exists b. split; [reflexivity |]. vm_compute. reflexivity.
Qed.

(** ** Adding blobs *)













(** ** Further properties of branch switching and creation *)

Lemma resolve_target_direct fuel rs o :
  pygit2.resolve_target fuel rs (pygit2.Direct o) = Return o.
Proof. destruct fuel; done. Qed.

Lemma Branch_init_mono r r' name b :
  Branch.__init__ r name = Return b →
  pygit2.references r' = pygit2.references r →
  (∀ x, x ∈ pygit2.objects r → x ∈ pygit2.objects r') →
  Branch.__init__ r' name = Return b.
Proof.
  unfold Branch.__init__, pygit2.lookup_reference, pygit2.Reference_get_object.
  intros H Hrefs Hobjs. rewrite Hrefs.
  destruct (pygit2.references r !! name) as [t |]; [| discriminate]. simpl in *.
  destruct (pygit2.resolve_target pygit2.MAX_NESTING_LEVEL (pygit2.references r) t)
    as [o | e |]; try discriminate.
  unfold pygit2.getitem in *. case_decide as Hin; [| discriminate].
  rewrite decide_True by auto. done.
Qed.

(** X1: [set_branch] to a well-formed branch name refuses to switch when
    the index has entries and differs from the branch: it raises
    [RepositoryError] and leaves head, index and references alone. *)
Theorem set_branch_refuses_pending_changes (name : string) (ws : Workspace.t) (i : Oid) :
  pygit2.wellformed_name name = true →
  Workspace.index ws = Some i →
  (0 < pygit2.Tree_len i)%nat →
  (Workspace.has_changes ws).1 = Return true →
  ∃ msg ws1,
    Workspace.set_branch name ws = (Raise (RepositoryError msg), ws1)
    ∧ Workspace.head ws1 = Workspace.head ws
    ∧ Workspace.index ws1 = Workspace.index ws
    ∧ pygit2.references (Workspace.repo ws1) = pygit2.references (Workspace.repo ws).
Proof.
  intros _ Hi Hlen Hc.
  unfold Workspace.set_branch, Workspace.update_index, pygit2.lookup_reference. run.
  destruct (pygit2.references (Workspace.repo ws) !! ("refs/heads/" +:+ name)); simpl;
    [| eauto 10].
  rewrite Hi. simpl. rewrite bool_decide_eq_true_2 by done.
  destruct (Workspace.has_changes ws) as [out ws1] eqn:E. simpl in Hc. subst out.
  simpl. eexists _, ws1. split; [done |].
  destruct (has_changes_frame _ _ _ E) as [-> | ->]; done.
Qed.

Lemma set_branch_refuses_pending_changes_witness :
  (∃ i, Workspace.index dirty_again_ws = Some i ∧ (0 < pygit2.Tree_len i)%nat)
  ∧ (Workspace.has_changes dirty_again_ws).1 = Return true
  ∧ ∃ msg ws1,
      Workspace.set_branch "master" dirty_again_ws = (Raise (RepositoryError msg), ws1)
      ∧ Workspace.index ws1 = Workspace.index dirty_again_ws.
Proof.
  destruct (Workspace.index dirty_again_ws) as [i |] eqn:Hi;
    [| vm_compute in Hi; discriminate].
  assert (Hlen : (0 < pygit2.Tree_len i)%nat).
  { vm_compute in Hi. injection Hi as <-. vm_compute. lia. }
  assert (Hc : (Workspace.has_changes dirty_again_ws).1 = Return true)
    by (vm_compute; reflexivity).
  split; [eauto |]. split; [exact Hc |].
  destruct (set_branch_refuses_pending_changes "master" dirty_again_ws i eq_refl Hi Hlen Hc)
    as (msg & ws1 & Hs & _ & Hidx & _).
  exists msg, ws1. split; [exact Hs | exact (eq_trans Hidx Hi)].
Defined.

(** X2: [set_branch] on a clean workspace and an existing branch: head becomes
    the branch reference and the index that branch's tree. *)
Theorem set_branch_switches_when_clean (name : string) (ws : Workspace.t) (b : Branch.t) :
  (Workspace.has_changes ws).1 = Return false →
  Branch.__init__ (Workspace.repo ws) ("refs/heads/" +:+ name) = Return b →
  ∃ ws1,
    Workspace.set_branch name ws = (Return tt, ws1)
    ∧ Workspace.head ws1 = "refs/heads/" +:+ name
    ∧ Workspace.index ws1 = Some (Branch.tree b).
Proof.
  intros Hc Hb.
  destruct (Workspace.has_changes ws) as [out ws1] eqn:E. simpl in Hc. subst out.
  destruct (Branch_init_resolves _ _ _ Hb) as (t & Ht & _).
  assert (Hpending : ∃ w, (w = ws ∨ w = with_empty_tree ws) ∧
            (if Workspace.index_truth (Workspace.index ws)
             then Workspace.has_changes else Workspace.ret false) ws = (Return false, w)).
  { destruct (Workspace.index_truth (Workspace.index ws)).
    - exists ws1. split; [by eapply has_changes_frame | done].
    - exists ws. split; [by left | done]. }
  destruct Hpending as (w & Hw & Hp).
  assert (Hrefs : pygit2.references (Workspace.repo w) = pygit2.references (Workspace.repo ws))
    by (destruct Hw as [-> | ->]; done).
  assert (Hb' : Branch.__init__ (Workspace.repo w) ("refs/heads/" +:+ name) = Return b).
  { apply (Branch_init_mono _ _ _ _ Hb Hrefs).
    destruct Hw as [-> | ->]; [done |]. simpl. intros x. apply write_object_mono. }
  exists (Workspace.with_index (Some (Branch.tree b))
            (Workspace.with_head ("refs/heads/" +:+ name) w)).
  split; [| done].
  unfold Workspace.set_branch, Workspace.try_except_KeyError, Workspace.on_repo,
    pygit2.lookup_reference.
  rewrite Ht. unfold Workspace.update_index.
  unfold Workspace.bind at 1, Workspace.get_index.
  rewrite (bind_Return _ _ _ _ _ Hp).
  unfold Workspace.try_except_KeyError, Workspace.on_repo, pygit2.lookup_reference.
  rewrite Hrefs, Ht.
  unfold Workspace.bind at 1, Workspace.set_head.
  unfold Workspace.bind at 1.
  rewrite (branch_attr_resolved "tree" Branch.tree
             (Workspace.with_head ("refs/heads/" +:+ name) w) b Hb').
  done.
Qed.

Lemma set_branch_switches_when_clean_witness :
  (Workspace.has_changes committed_ws).1 = Return false
  ∧ ∃ b ws1,
      Branch.__init__ (Workspace.repo committed_ws) ("refs/heads/" +:+ "master") = Return b
      ∧ Workspace.set_branch "master" committed_ws = (Return tt, ws1)
      ∧ Workspace.index ws1 = Some (Branch.tree b).
Proof.
  assert (Hc : (Workspace.has_changes committed_ws).1 = Return false)
    by (vm_compute; reflexivity).
  split; [exact Hc |].
  destruct (Branch.__init__ (Workspace.repo committed_ws) ("refs/heads/" +:+ "master"))
    as [b | e |] eqn:Hb; try (vm_compute in Hb; discriminate).
  destruct (set_branch_switches_when_clean "master" committed_ws b Hc Hb)
    as (ws1 & Hs & _ & Hi).
  exists b, ws1. split; [reflexivity | split; [exact Hs | exact Hi]].
Defined.

(** X3: [create_branch] from a start point that is not a reference raises
    [RepositoryError] and changes nothing. *)
Theorem create_branch_unknown_start_point (name : string) (start_point : option string)
        (ws : Workspace.t) :
  let start := match start_point with
               | Some s => if decide (s = "") then Workspace.head ws else s
               | None => Workspace.head ws
               end in
  pygit2.lookup_reference (Workspace.repo ws) start = Raise KeyError →
  Workspace.create_branch name start_point ws
  = (Raise (RepositoryError ("Reference not found: " +:+ start)), ws).
Proof.
  intros start H. unfold Workspace.create_branch. run.
  destruct start_point as [s |]; simpl; [destruct (decide (s = "")) |]; simpl;
    fold start; subst start; simpl in *; rewrite H; done.
Qed.

Lemma create_branch_unknown_start_point_witness :
  Workspace.create_branch "topic" None unborn_ws
  = (Raise (RepositoryError "Reference not found: refs/heads/master"), unborn_ws).
Proof.
  apply (create_branch_unknown_start_point "topic" None unborn_ws).
  vm_compute. reflexivity.
Defined.



(** ** Plain relative paths *)

Lemma append_empty_l s : "" +:+ s = s.
Proof. reflexivity. Qed.

Lemma append_String_l c a s : String c a +:+ s = String c (a +:+ s).
Proof. reflexivity. Qed.

Ltac path_step :=
  rewrite ?append_String_l, ?append_empty_l;
  cbn [os_path.split_sep os_path.rpartition os_path.rstrip_sep os_path.all_sep slash_free].

Lemma slash_free_cons c r :
  slash_free (String c r) = true → c ≠ os_path.sep ∧ slash_free r = true.
Proof.
  path_step. rewrite andb_true_iff, negb_true_iff, bool_decide_eq_false. done.
Qed.

Lemma split_sep_slash_free s : slash_free s = true → os_path.split_sep s = [s].
Proof.
  induction s as [| c r IH]; [done |].
  intros [Hc Hr]%slash_free_cons. path_step.
  rewrite decide_False by done. rewrite (IH Hr). done.
Qed.

Lemma split_sep_app s r :
  slash_free s = true →
  os_path.split_sep (s +:+ String os_path.sep r) = s :: os_path.split_sep r.
Proof.
  induction s as [| c s' IH].
  - intros _. path_step. rewrite decide_True; done.
  - intros [Hc Hs]%slash_free_cons. path_step.
    rewrite decide_False by done. rewrite (IH Hs). done.
Qed.

Lemma rpartition_slash_free s : slash_free s = true → os_path.rpartition s = ("", s).
Proof.
  induction s as [| c r IH]; [done |].
  intros [Hc Hr]%slash_free_cons. path_step.
  rewrite (IH Hr). rewrite decide_False; done.
Qed.

Lemma rpartition_app a s :
  slash_free s = true →
  os_path.rpartition (a +:+ String os_path.sep s) = (a +:+ String os_path.sep "", s).
Proof.
  intros Hs. induction a as [| c a' IH]; path_step.
  - rewrite (rpartition_slash_free _ Hs). rewrite decide_True; done.
  - rewrite IH. destruct a'; done.
Qed.

Lemma rstrip_sep_app_sep a :
  os_path.rstrip_sep (a +:+ String os_path.sep "") = os_path.rstrip_sep a.
Proof.
  induction a as [| c a' IH]; path_step.
  - rewrite decide_True; done.
  - rewrite IH. done.
Qed.

Lemma rstrip_sep_cons c x :
  os_path.rstrip_sep x = x → x ≠ "" → os_path.rstrip_sep (String c x) = String c x.
Proof. intros Hx Hne. path_step. rewrite Hx. destruct x; done. Qed.

Lemma rstrip_sep_slash_free s : slash_free s = true → os_path.rstrip_sep s = s.
Proof.
  induction s as [| c r IH]; [done |].
  intros [Hc Hr]%slash_free_cons. path_step.
  rewrite (IH Hr). destruct r; [| done]. rewrite decide_False; done.
Qed.

Lemma rstrip_sep_app u v :
  os_path.rstrip_sep v = v → v ≠ "" → os_path.rstrip_sep (u +:+ v) = u +:+ v.
Proof.
  intros Hv Hne. induction u as [| c u' IH]; path_step; [done |].
  rewrite IH. destruct (u' +:+ v) eqn:E; [| done].
  destruct u'; [rewrite append_empty_l in E; contradiction | discriminate].
Qed.

Lemma all_sep_cons_false c r :
  c ≠ os_path.sep → os_path.all_sep (String c r) = false.
Proof. intros Hc. path_step. rewrite bool_decide_eq_false_2; done. Qed.

Lemma all_sep_app_false x y : os_path.all_sep x = false → os_path.all_sep (x +:+ y) = false.
Proof.
  induction x as [| c r IH]; [done |]. path_step.
  rewrite !andb_false_iff. intros [Hc | Hr]; auto.
Qed.

Lemma plain_inv s :
  plain s = true → s ≠ "" ∧ slash_free s = true.
Proof.
  unfold plain. rewrite andb_true_iff, negb_true_iff, bool_decide_eq_false. done.
Qed.

Lemma join_sep_fixed segs :
  Forall (λ s, plain s = true) segs →
  os_path.rstrip_sep (join_sep segs) = join_sep segs
  ∧ (segs ≠ [] → join_sep segs ≠ "" ∧ os_path.all_sep (join_sep segs) = false).
Proof.
  induction 1 as [| s rest Hs Hrest [IH1 IH2]]; [done |].
  destruct (plain_inv _ Hs) as [Hne Hfree].
  assert (Hfirst : ∃ c r, s = String c r ∧ c ≠ os_path.sep).
  { destruct s as [| c r]; [done |].
    apply slash_free_cons in Hfree as [Hc _]. eauto. }
  destruct rest as [| s' rest'].
  - cbn [join_sep]. split; [by apply rstrip_sep_slash_free |]. intros _. split; [done |].
    destruct Hfirst as (c & r & -> & Hc). by apply all_sep_cons_false.
  - change (join_sep (s :: s' :: rest'))
      with (s +:+ String os_path.sep (join_sep (s' :: rest'))).
    destruct (IH2 ltac:(done)) as [Hne' _]. split.
    + apply rstrip_sep_app; [| done]. apply rstrip_sep_cons; done.
    + intros _. destruct Hfirst as (c & r & -> & Hc). split; [done |].
      rewrite append_String_l. by apply all_sep_cons_false.
Qed.

Lemma segments_join_sep segs :
  Forall (λ s, plain s = true) segs → os_path.segments (join_sep segs) = segs.
Proof.
  induction 1 as [| s rest Hs Hrest IH]; [done |].
  destruct (plain_inv _ Hs) as [Hne Hfree].
  destruct rest as [| s' rest'].
  - cbn [join_sep]. unfold os_path.segments. rewrite decide_False by done.
    by apply split_sep_slash_free.
  - change (join_sep (s :: s' :: rest'))
      with (s +:+ String os_path.sep (join_sep (s' :: rest'))).
    unfold os_path.segments in *. rewrite decide_False by (destruct s; done).
    rewrite split_sep_app by done. f_equal.
    destruct (decide (join_sep (s' :: rest') = "")); [discriminate | done].
Qed.

Lemma append_sep_assoc s x y :
  (s +:+ String os_path.sep x) +:+ y = s +:+ String os_path.sep (x +:+ y).
Proof.
  induction s as [| c s' IH]; [done |].
  rewrite !append_String_l, IH. done.
Qed.

Lemma join_sep_snoc segs name :
  segs ≠ [] →
  join_sep (segs ++ [name]) = join_sep segs +:+ String os_path.sep name.
Proof.
  induction segs as [| s rest IH]; [done |]. intros _.
  destruct rest as [| s' rest']; [done |].
  change (join_sep ((s :: s' :: rest') ++ [name]))
    with (s +:+ String os_path.sep (join_sep ((s' :: rest') ++ [name]))).
  rewrite IH by done.
  change (join_sep (s :: s' :: rest'))
    with (s +:+ String os_path.sep (join_sep (s' :: rest'))).
  rewrite append_sep_assoc. done.
Qed.

(** X5: a path made of plain segments joined by slashes is split by
    [os.path.split] into the path of all segments but the last and the last
    segment, and its segments are those of the parent followed by the leaf
    name. *)
Theorem plain_path_split (segs : list string) (name : string) :
  Forall (λ s, plain s = true) (segs ++ [name]) →
  os_path.split (join_sep (segs ++ [name])) = (join_sep segs, name)
  ∧ os_path.segments (join_sep (segs ++ [name]))
    = os_path.segments (join_sep segs) ++ [name].
Proof.
  intros Hall. pose proof Hall as Hall'.
  apply Forall_app in Hall' as [Hsegs Hname].
  apply Forall_singleton, plain_inv in Hname as [Hne Hfree].
  split; [| by rewrite !segments_join_sep].
  destruct segs as [| s rest].
  - cbn [app join_sep]. unfold os_path.split.
    rewrite rpartition_slash_free by done. done.
  - rewrite join_sep_snoc by done. unfold os_path.split.
    rewrite rpartition_app by done.
    destruct (join_sep_fixed _ Hsegs) as [Hfix Hnonempty].
    destruct (Hnonempty ltac:(done)) as [Hne' Hall_sep].
    rewrite (all_sep_app_false _ _ Hall_sep).
    rewrite bool_decide_eq_false_2 by (destruct (join_sep (s :: rest)); done).
    cbn [negb andb]. rewrite rstrip_sep_app_sep, Hfix. done.
Qed.

Lemma plain_path_split_witness :
  os_path.split "a/b/c" = ("a/b", "c")
  ∧ os_path.segments "a/b/c" = os_path.segments "a/b" ++ ["c"].
Proof.
  apply (plain_path_split ["a"; "b"] "c").
  repeat constructor.
Defined.

(** * Further properties of the workspace *)

(** ** Dirty-state detection changes nothing *)

(** X6: [diff()] and [has_changes()] leave configuration, head, index,
    clock and every reference as they are, whatever they return or raise;
    the store keeps all its objects and gains at most the empty tree. *)
Theorem has_changes_only_reads (ws : Workspace.t) :
  let ws1 := (Workspace.has_changes ws).2 in
  Workspace.config ws1 = Workspace.config ws
  ∧ Workspace.head ws1 = Workspace.head ws
  ∧ Workspace.index ws1 = Workspace.index ws
  ∧ Workspace.clock ws1 = Workspace.clock ws
  ∧ pygit2.references (Workspace.repo ws1) = pygit2.references (Workspace.repo ws)
  ∧ (∀ x, x ∈ pygit2.objects (Workspace.repo ws) → x ∈ pygit2.objects (Workspace.repo ws1))
  ∧ (∀ x, x ∈ pygit2.objects (Workspace.repo ws1) →
          x ∈ pygit2.objects (Workspace.repo ws) ∨ x = TreeId [])
  ∧ (Workspace.diff ws).2 = ws1.
Proof.
  destruct (Workspace.has_changes ws) as [out ws1] eqn:E. simpl.
  assert (Hd : (Workspace.diff ws).2 = ws1).
  { revert E. unfold Workspace.has_changes, Workspace.bind, Workspace.ret.
    destruct (Workspace.diff ws) as [[d | e |] w]; intros [= _ <-]; done. }
  destruct (has_changes_frame _ _ _ E) as [-> | ->]; simpl;
    repeat split; try done; auto using write_object_mono, write_object_inv.
Qed.

(** ** Construction *)

(** X7: a workspace that was just constructed is clean, on an existing
    branch and on an unborn one alike, and a [commit()] made right away
    returns [None]. *)
Theorem init_is_clean fs cfg clk repo_path initial_branch ws :
  Workspace.__init__ fs cfg clk repo_path initial_branch = Return ws →
  (Workspace.has_changes ws).1 = Return false
  ∧ ∀ message author committer,
      (Workspace.commit message author committer ws).1 = Return None.
Proof.
  rewrite init_eval. intros Hinit.
  assert (Hclean : (Workspace.has_changes ws).1 = Return false).
  { destruct (fs !! repo_path) as [r |]; [| discriminate].
    destruct (pygit2.references r !! initial_branch) as [t |] eqn:Ht.
    - destruct (Branch.__init__ r initial_branch) as [b | e |] eqn:Hb; try discriminate.
      injection Hinit as <-.
      erewrite has_changes_resolved; [| exact Hb | done]. simpl.
      rewrite Tree_diff_to_tree_same. rewrite bool_decide_eq_false_2; [done |]. auto.
    - injection Hinit as <-.
      erewrite has_changes_unborn; [| exact Ht | done]. cbn [fst].
      rewrite Tree_diff_to_tree_same. rewrite bool_decide_eq_false_2; [done |]. auto. }
  split; [exact Hclean |]. intros message author committer.
  destruct (Workspace.has_changes ws) as [out ws1] eqn:E. simpl in Hclean. subst out.
  rewrite (commit_clean _ _ _ _ _ E). done.
Qed.

Lemma init_is_clean_witness :
  (Workspace.has_changes unborn_ws).1 = Return false
  ∧ (Workspace.commit "nothing" None None unborn_ws).1 = Return None.
Proof.
  assert (Hinit : Workspace.__init__ example_fs example_config example_clock
                    "/repo" "refs/heads/master" = Return unborn_ws)
    by (vm_compute; reflexivity).
  destruct (init_is_clean _ _ _ _ _ _ Hinit) as [Hc Hcommit].
  split; [exact Hc | apply Hcommit].
Defined.

(** ** Commits *)

(** X8: right after a [commit()] that created a commit, a second
    [commit()] finds nothing to commit: it returns [None] and leaves the
    workspace as it is. *)
Theorem commit_twice message author committer ws c ws2 :
  Workspace.commit message author committer ws = (Return (Some c), ws2) →
  ∀ message' author' committer',
    Workspace.commit message' author' committer' ws2 = (Return None, ws2).
Proof.
  intros H message' author' committer'.
  apply commit_clean. eapply has_changes_after_commit. exact H.
Qed.

Lemma commit_twice_witness :
  ∃ c ws2,
    Workspace.commit "first" None None dirty_ws = (Return (Some c), ws2)
    ∧ Workspace.commit "again" None None ws2 = (Return None, ws2).
Proof.
  destruct (Workspace.commit "first" None None dirty_ws) as [[[c |] | e |] ws2] eqn:E;
    try (vm_compute in E; discriminate).
  exists c, ws2. split; [reflexivity |].
  exact (commit_twice "first" None None dirty_ws c ws2 E "again" None None).
Defined.

Lemma update_terminal_direct fuel rs name o :
  (∀ n, rs !! name ≠ Some (pygit2.Symbolic n)) →
  pygit2.update_terminal fuel rs name o = Return (<[name := pygit2.Direct o]> rs).
Proof.
  intros H. destruct fuel; simpl;
    destruct (rs !! name) as [[x | n] |] eqn:E; try done; by destruct (H n).
Qed.

(** X9: a [commit()] that creates a commit on a head that is not a
    symbolic reference points exactly that reference at the new commit and
    leaves every other reference, the head name and the index untouched. *)
Theorem commit_moves_only_head message author committer ws c ws2 :
  Workspace.commit message author committer ws = (Return (Some c), ws2) →
  (∀ n, pygit2.references (Workspace.repo ws) !! Workspace.head ws
        ≠ Some (pygit2.Symbolic n)) →
  pygit2.references (Workspace.repo ws2) !! Workspace.head ws = Some (pygit2.Direct c)
  ∧ (∀ k, k ≠ Workspace.head ws →
          pygit2.references (Workspace.repo ws2) !! k
          = pygit2.references (Workspace.repo ws) !! k)
  ∧ Workspace.head ws2 = Workspace.head ws
  ∧ Workspace.index ws2 = Workspace.index ws.
Proof.
  intros H Hdirect.
  destruct (commit_inv _ _ _ _ _ _ H)
    as (i & ps & sa & sc & clk2 & rs & ws1 & _ & Hi & -> & Hup & ->).
  rewrite (update_terminal_direct _ _ _ _ Hdirect) in Hup. injection Hup as <-.
  simpl. split; [apply lookup_insert_eq |]. split; [| by rewrite Hi].
  intros k Hk. by apply lookup_insert_ne.
Qed.

Lemma commit_moves_only_head_witness :
  ∃ c ws2,
    Workspace.commit "second" None None dirty_again_ws = (Return (Some c), ws2)
    ∧ pygit2.references (Workspace.repo ws2) !! "refs/heads/master"
      = Some (pygit2.Direct c)
    ∧ Workspace.index ws2 = Workspace.index dirty_again_ws.
Proof.
  destruct (Workspace.commit "second" None None dirty_again_ws)
    as [[[c |] | e |] ws2] eqn:E; try (vm_compute in E; discriminate).
  destruct (commit_moves_only_head "second" None None dirty_again_ws c ws2 E)
    as (Hhead & _ & _ & Hidx).
  - intros n. vm_compute. discriminate.
  - exists c, ws2. split; [reflexivity |]. split; [exact Hhead | exact Hidx].
Defined.



(** ** History *)

(** X11: iterating [walk()] on an unborn branch raises [AttributeError]
    for [oid], since [self.branch] is [None]; the store's walker is never
    called and the workspace is unchanged. *)
Theorem walk_unborn rw sort ws :
  unborn ws →
  Workspace.walk rw sort ws = (Raise (AttributeError "oid"), ws).
Proof.
  intros H. unfold Workspace.walk, Workspace.branch_attr.
  do 2 unfold Workspace.bind at 1. rewrite (branch_unborn _ H). done.
Qed.

Lemma walk_unborn_witness :
  Workspace.walk (λ _ o _, first_parents o) 0 unborn_ws
  = (Raise (AttributeError "oid"), unborn_ws).
Proof. apply walk_unborn. vm_compute. reflexivity. Defined.

(** X12: after a [commit()] that created a commit, [walk()] starts the
    store's walker at that commit and leaves the workspace as it is. *)
Theorem walk_starts_at_new_commit rw sort message author committer ws c ws2 :
  Workspace.commit message author committer ws = (Return (Some c), ws2) →
  Workspace.walk rw sort ws2 = (Return (rw (Workspace.repo ws2) c sort), ws2).
Proof.
  intros H.
  destruct (commit_inv _ _ _ _ _ _ H)
    as (i & ps & sa & sc & clk2 & rs & ws1 & _ & Hi & -> & Hup & ->).
  destruct (Branch_init_recorded _ _ i ps sa sc message rs
              (pygit2.write_object (CommitId i ps sa sc message)
                 (pygit2.objects (Workspace.repo ws1)))
              Hup (elem_of_write_object _ _)) as [rf Hb].
  unfold Workspace.walk. unfold Workspace.bind at 1.
  erewrite (branch_attr_resolved "oid" Branch.oid); [| exact Hb]. done.
Qed.

Lemma walk_starts_at_new_commit_witness :
  ∃ c ws2,
    Workspace.commit "first" None None dirty_ws = (Return (Some c), ws2)
    ∧ Workspace.walk (λ _ o _, first_parents o) 0 ws2 = (Return [c], ws2).
Proof.
  destruct (Workspace.commit "first" None None dirty_ws) as [[[c |] | e |] ws2] eqn:E;
    try (vm_compute in E; discriminate).
  exists c, ws2. split; [reflexivity |].
  rewrite (walk_starts_at_new_commit (λ _ o _, first_parents o) 0 _ _ _ _ _ _ E).
  vm_compute in E. injection E as <- _. reflexivity.
Defined.

(** ** Switching branches *)

Lemma pending_false ws :
  (Workspace.has_changes ws).1 = Return false →
  ∃ w, (w = ws ∨ w = with_empty_tree ws)
       ∧ (if Workspace.index_truth (Workspace.index ws)
          then Workspace.has_changes else Workspace.ret false) ws = (Return false, w).
Proof.
  intros Hc.
  destruct (Workspace.has_changes ws) as [out ws1] eqn:E. simpl in Hc. subst out.
  destruct (Workspace.index_truth (Workspace.index ws)).
  - exists ws1. split; [by eapply has_changes_frame | done].
  - exists ws. split; [by left | done].
Qed.

Lemma pending_false_references ws w :
  w = ws ∨ w = with_empty_tree ws →
  pygit2.references (Workspace.repo w) = pygit2.references (Workspace.repo ws)
  ∧ Workspace.index w = Workspace.index ws
  ∧ (∀ x, x ∈ pygit2.objects (Workspace.repo ws) → x ∈ pygit2.objects (Workspace.repo w)).
Proof.
  intros [-> | ->]; simpl; repeat split; auto using write_object_mono.
Qed.

(** The tree of a branch whose reference names something else than a
    commit: [Branch] fails on [commit.tree] when the object is stored, and
    [self.branch] is [None] when it is not. *)
Lemma branch_tree_not_commit ws o :
  pygit2.references (Workspace.repo ws) !! Workspace.head ws = Some (pygit2.Direct o) →
  is_commit o = false →
  Workspace.branch_attr "tree" Branch.tree ws = (Raise (AttributeError "tree"), ws).
Proof.
  intros Ht Ho.
  unfold Workspace.branch_attr, Workspace.branch, Branch.__init__,
    pygit2.lookup_reference, pygit2.Reference_get_object. run.
  rewrite Ht. simpl. rewrite resolve_target_direct.
  unfold pygit2.getitem. case_decide; simpl; [| done].
  destruct o; try discriminate; done.
Qed.

(** X13: [set_branch] is not atomic.  On a clean workspace, when
    [refs/heads/<name>] is a direct reference to something that is not a
    commit, [update_index] has already moved the head when reading the
    branch's tree fails: [set_branch] raises [AttributeError] for [tree]
    with the head on the new reference and the index still the old one. *)
Theorem set_branch_moves_head_before_failing name ws o :
  (Workspace.has_changes ws).1 = Return false →
  pygit2.references (Workspace.repo ws) !! ("refs/heads/" +:+ name)
  = Some (pygit2.Direct o) →
  is_commit o = false →
  ∃ ws1,
    Workspace.set_branch name ws = (Raise (AttributeError "tree"), ws1)
    ∧ Workspace.head ws1 = "refs/heads/" +:+ name
    ∧ Workspace.index ws1 = Workspace.index ws
    ∧ pygit2.references (Workspace.repo ws1) = pygit2.references (Workspace.repo ws).
Proof.
  intros Hc Ht Ho.
  destruct (pending_false _ Hc) as (w & Hw & Hp).
  destruct (pending_false_references _ _ Hw) as (Hrefs & Hidx & _).
  exists (Workspace.with_head ("refs/heads/" +:+ name) w).
  split; [| done].
  unfold Workspace.set_branch, Workspace.try_except_KeyError, Workspace.on_repo,
    pygit2.lookup_reference.
  rewrite Ht. unfold Workspace.update_index.
  unfold Workspace.bind at 1, Workspace.get_index.
  rewrite (bind_Return _ _ _ _ _ Hp).
  unfold Workspace.try_except_KeyError, Workspace.on_repo, pygit2.lookup_reference.
  rewrite Hrefs, Ht.
  unfold Workspace.bind at 1, Workspace.set_head.
  unfold Workspace.bind at 1.
  rewrite (branch_tree_not_commit (Workspace.with_head ("refs/heads/" +:+ name) w) o);
    [done | by simpl; rewrite Hrefs | done].
Qed.

Lemma set_branch_moves_head_before_failing_witness :
  ∃ ws1,
    Workspace.set_branch "release" blob_branch_ws = (Raise (AttributeError "tree"), ws1)
    ∧ Workspace.head ws1 = "refs/heads/" +:+ "release"
    ∧ Workspace.index ws1 = Workspace.index blob_branch_ws.
Proof.
  destruct (set_branch_moves_head_before_failing "release" blob_branch_ws (BlobId "v1"))
    as (ws1 & Hs & Hh & Hi & _);
    [vm_compute; reflexivity | vm_compute; reflexivity | reflexivity |].
  exists ws1. split; [exact Hs | split; [exact Hh | exact Hi]].
Defined.

(** ** Creating branches *)

(** X14: [create_branch] never overwrites.  Whatever it returns or
    raises, head, index and the stored objects are unchanged, every
    reference that existed keeps its target, and no reference other than
    [refs/heads/<name>] is touched; when [refs/heads/<name>] exists already
    the workspace is left exactly as it was. *)
Theorem create_branch_never_overwrites name start_point ws :
  let ws1 := (Workspace.create_branch name start_point ws).2 in
  Workspace.head ws1 = Workspace.head ws
  ∧ Workspace.index ws1 = Workspace.index ws
  ∧ pygit2.objects (Workspace.repo ws1) = pygit2.objects (Workspace.repo ws)
  ∧ (∀ k t, pygit2.references (Workspace.repo ws) !! k = Some t →
            pygit2.references (Workspace.repo ws1) !! k = Some t)
  ∧ (∀ k, k ≠ "refs/heads/" +:+ name →
          pygit2.references (Workspace.repo ws1) !! k
          = pygit2.references (Workspace.repo ws) !! k)
  ∧ (∀ t, pygit2.references (Workspace.repo ws) !! ("refs/heads/" +:+ name) = Some t →
          ws1 = ws).
Proof.
  unfold Workspace.create_branch, pygit2.lookup_reference, pygit2.create_reference. run.
  destruct start_point as [s |]; simpl; [destruct (decide (s = "")) |]; simpl;
    match goal with
    | |- context [match pygit2.references _ !! ?k with
                  | Some _ => Return _
                  | None => Raise KeyError
                  end] =>
        destruct (pygit2.references (Workspace.repo ws) !! k) as [t |]; simpl;
          [| repeat split; auto]
    end;
    (destruct (decide (pygit2.Reference_type _ ≠ pygit2.GIT_OBJ_COMMIT)); simpl;
       [repeat split; auto |]);
    (destruct (pygit2.references (Workspace.repo ws) !! ("refs/heads/" +:+ name))
       as [t' |] eqn:Hname; simpl; [repeat split; auto; by destruct ws |]);
    (split; [done |]; split; [done |]; split; [done |]; split; [| split; [| done]];
       [intros k t0 Hk; rewrite lookup_insert_ne; [done | congruence]
       | intros k Hk; by rewrite lookup_insert_ne]).
Qed.







(** ** Symbolic references *)

Lemma MAX_NESTING_LEVEL_pos : ∃ fuel, pygit2.MAX_NESTING_LEVEL = S fuel.
Proof. exists 9%nat. vm_compute. reflexivity. Qed.

Lemma update_terminal_one_hop rs name n o :
  rs !! name = Some (pygit2.Symbolic n) →
  (∀ m, rs !! n ≠ Some (pygit2.Symbolic m)) →
  pygit2.update_terminal pygit2.MAX_NESTING_LEVEL rs name o
  = Return (<[n := pygit2.Direct o]> rs).
Proof.
  intros Hname Hn. destruct MAX_NESTING_LEVEL_pos as [fuel ->].
  simpl. rewrite Hname. by apply update_terminal_direct.
Qed.

(** X16: the branch view of a symbolic reference to a direct one is the
    view of its target: same commit, oid and tree, with the symbolic
    reference as [ref]; and it fails exactly as the view of the target
    fails. *)
Theorem Branch_through_symbolic_reference r name n o :
  pygit2.references r !! name = Some (pygit2.Symbolic n) →
  pygit2.references r !! n = Some (pygit2.Direct o) →
  Branch.__init__ r name
  = match Branch.__init__ r n with
    | Return b =>
        Return (Branch.mk (pygit2.mkReference name (pygit2.Symbolic n))
                  (Branch.commit b) (Branch.oid b) (Branch.tree b))
    | Raise e => Raise e
    | Diverge => Diverge
    end.
Proof.
  intros Hname Hn.
  unfold Branch.__init__, pygit2.lookup_reference, pygit2.Reference_get_object.
  rewrite Hname, Hn. simpl. rewrite resolve_target_direct.
  destruct MAX_NESTING_LEVEL_pos as [fuel ->]. simpl. rewrite Hn.
  rewrite resolve_target_direct.
  destruct (pygit2.getitem r o) as [c | e |]; try done.
  destruct c; done.
Qed.

Lemma Branch_through_symbolic_reference_witness :
  ∃ b b',
    Branch.__init__ (Workspace.repo symbolic_head_ws) "refs/heads/master" = Return b
    ∧ Branch.__init__ (Workspace.repo symbolic_head_ws) "HEAD" = Return b'
    ∧ Branch.commit b' = Branch.commit b
    ∧ Branch.tree b' = Branch.tree b.
Proof.
  destruct (pygit2.references (Workspace.repo symbolic_head_ws) !! "refs/heads/master")
    as [[o | n] |] eqn:Hn; try (vm_compute in Hn; discriminate).
  pose proof (Branch_through_symbolic_reference (Workspace.repo symbolic_head_ws)
                "HEAD" "refs/heads/master" o) as H.
  destruct (Branch.__init__ (Workspace.repo symbolic_head_ws) "refs/heads/master")
    as [b | e |] eqn:Hb; try (vm_compute in Hb; discriminate).
  eexists b, _. split; [reflexivity |].
  split; [apply H; [vm_compute; reflexivity | exact Hn] |].
  split; reflexivity.
Defined.

(** X17: a [commit()] made on a head that is a symbolic reference to a
    branch leaves the symbolic reference as it is and moves the branch it
    names to the new commit; no other reference changes. *)
Theorem commit_through_symbolic_head message author committer ws c ws2 n :
  Workspace.commit message author committer ws = (Return (Some c), ws2) →
  pygit2.references (Workspace.repo ws) !! Workspace.head ws = Some (pygit2.Symbolic n) →
  (∀ m, pygit2.references (Workspace.repo ws) !! n ≠ Some (pygit2.Symbolic m)) →
  pygit2.references (Workspace.repo ws2) !! Workspace.head ws = Some (pygit2.Symbolic n)
  ∧ pygit2.references (Workspace.repo ws2) !! n = Some (pygit2.Direct c)
  ∧ (∀ k, k ≠ n →
          pygit2.references (Workspace.repo ws2) !! k
          = pygit2.references (Workspace.repo ws) !! k)
  ∧ Workspace.head ws2 = Workspace.head ws.
Proof.
  intros H Hhead Hn.
  destruct (commit_inv _ _ _ _ _ _ H)
    as (i & ps & sa & sc & clk2 & rs & ws1 & _ & Hi & -> & Hup & ->).
  rewrite (update_terminal_one_hop _ _ _ _ Hhead Hn) in Hup. injection Hup as <-.
  simpl.
  assert (Hne : Workspace.head ws ≠ n).
  { intros Heq. rewrite Heq in Hhead. exact (Hn n Hhead). }
  split; [by rewrite lookup_insert_ne |].
  split; [apply lookup_insert_eq |].
  split; [| done]. intros k Hk. by apply lookup_insert_ne.
Qed.

Lemma commit_through_symbolic_head_witness :
  ∃ c ws2,
    Workspace.commit "second" None None on_HEAD_ws = (Return (Some c), ws2)
    ∧ pygit2.references (Workspace.repo ws2) !! "HEAD"
      = Some (pygit2.Symbolic "refs/heads/master")
    ∧ pygit2.references (Workspace.repo ws2) !! "refs/heads/master"
      = Some (pygit2.Direct c).
Proof.
  destruct (Workspace.commit "second" None None on_HEAD_ws)
    as [[[c |] | e |] ws2] eqn:E; try (vm_compute in E; discriminate).
  destruct (commit_through_symbolic_head "second" None None on_HEAD_ws c ws2
              "refs/heads/master" E)
    as (Hsym & Htarget & _ & _).
  - vm_compute. reflexivity.
  - intros m. vm_compute. discriminate.
  - exists c, ws2. split; [reflexivity |]. split; [exact Hsym | exact Htarget].
Defined.

(** ** Consecutive commits *)

(** X18: history is linear.  After a [commit()] that created the commit
    [c1], any later [commit()] on the same head that creates a commit, with
    whatever was added to the index and the store in between, creates a
    commit whose only parent is [c1]. *)
Theorem commits_are_chained m1 a1 k1 ws c1 ws2 ws3 m2 a2 k2 c2 ws4 :
  Workspace.commit m1 a1 k1 ws = (Return (Some c1), ws2) →
  Workspace.head ws3 = Workspace.head ws2 →
  pygit2.references (Workspace.repo ws3) = pygit2.references (Workspace.repo ws2) →
  (∀ x, x ∈ pygit2.objects (Workspace.repo ws2) →
        x ∈ pygit2.objects (Workspace.repo ws3)) →
  Workspace.commit m2 a2 k2 ws3 = (Return (Some c2), ws4) →
  ∃ i sa sc,
    Workspace.index ws3 = Some i
    ∧ c2 = CommitId i [c1] sa sc m2
    ∧ first_parents c2 = c2 :: first_parents c1.
Proof.
  intros H1 Hhead Hrefs Hobjs H2.
  destruct (commit_inv _ _ _ _ _ _ H1)
    as (i1 & ps & sa1 & sc1 & clk2 & rs & ws1 & _ & Hi1 & -> & Hup & ->).
  destruct (Branch_init_recorded _ _ i1 ps sa1 sc1 m1 rs
              (pygit2.write_object (CommitId i1 ps sa1 sc1 m1)
                 (pygit2.objects (Workspace.repo ws1)))
              Hup (elem_of_write_object _ _)) as [rf Hb].
  simpl in Hhead, Hrefs, Hobjs.
  assert (Hb3 : Branch.__init__ (Workspace.repo ws3) (Workspace.head ws3)
                = Return (Branch.mk rf (CommitId i1 ps sa1 sc1 m1)
                            (CommitId i1 ps sa1 sc1 m1) i1)).
  { rewrite Hhead. eapply Branch_init_mono; [exact Hb | exact Hrefs | exact Hobjs]. }
  destruct (commit_inv _ _ _ _ _ _ H2) as (i & _ & _ & _ & _ & _ & _ & _ & Hi & _).
  destruct (signatures (Workspace.config ws3) (Workspace.clock ws3) a2 k2)
    as [[sa sc] clk3] eqn:Hs.
  exists i, sa, sc. split; [exact Hi |].
  destruct (decide (pygit2.Tree_diff_to_tree i1 i = [])) as [Hd | Hd].
  - pose proof (has_changes_resolved _ _ _ Hb3 Hi) as Hc. simpl in Hc.
    rewrite bool_decide_eq_false_2 in Hc by auto.
    rewrite (commit_clean m2 a2 k2 _ _ Hc) in H2. discriminate.
  - destruct (commit_resolved m2 a2 k2 _ _ _ _ _ _ Hb3 Hi Hd Hs) as (rs' & _ & Hcommit).
    rewrite Hcommit in H2. simpl in H2. injection H2 as <- _. done.
Qed.

Lemma commits_are_chained_witness :
  ∃ c1 ws2 c2 ws4 i sa sc,
    Workspace.commit "first" None None dirty_ws = (Return (Some c1), ws2)
    ∧ Workspace.commit "second" None None (Workspace.with_index (Some (TreeId [])) ws2)
      = (Return (Some c2), ws4)
    ∧ c2 = CommitId i [c1] sa sc "second".
Proof.
  destruct (Workspace.commit "first" None None dirty_ws) as [[[c1 |] | e |] ws2] eqn:E1;
    try (vm_compute in E1; discriminate).
  destruct (Workspace.commit "second" None None (Workspace.with_index (Some (TreeId [])) ws2))
    as [[[c2 |] | e |] ws4] eqn:E2;
    try (vm_compute in E1; injection E1 as <- <-; vm_compute in E2; discriminate).
  destruct (commits_are_chained "first" None None dirty_ws c1 ws2
              (Workspace.with_index (Some (TreeId [])) ws2) "second" None None c2 ws4 E1)
    as (i & sa & sc & _ & Hc2 & _);
    [reflexivity | reflexivity | intros x Hx; exact Hx | exact E2 |].
  exists c1, ws2, c2, ws4, i, sa, sc.
  split; [reflexivity | split; [exact E2 | exact Hc2]].
Defined.

(** ** Opening a workspace *)

(** X19: constructing a workspace creates, moves and deletes no
    reference: the store it works on has the references of the store at
    [repo_path], keeps all its objects and gains at most the empty tree; the
    head is the requested branch and the index is set. *)
Theorem init_creates_no_reference fs cfg clk repo_path initial_branch ws :
  Workspace.__init__ fs cfg clk repo_path initial_branch = Return ws →
  ∃ r i,
    fs !! repo_path = Some r
    ∧ pygit2.references (Workspace.repo ws) = pygit2.references r
    ∧ (∀ x, x ∈ pygit2.objects r → x ∈ pygit2.objects (Workspace.repo ws))
    ∧ (∀ x, x ∈ pygit2.objects (Workspace.repo ws) → x ∈ pygit2.objects r ∨ x = TreeId [])
    ∧ Workspace.head ws = initial_branch
    ∧ Workspace.index ws = Some i.
Proof.
  rewrite init_eval.
  destruct (fs !! repo_path) as [r |]; [| discriminate].
  destruct (pygit2.references r !! initial_branch) as [t |] eqn:Ht.
  - destruct (Branch.__init__ r initial_branch) as [b | e |] eqn:Hb; try discriminate.
    intros [= <-]. exists r, (Branch.tree b). simpl. repeat split; auto.
  - intros [= <-]. exists r, (TreeId []). simpl.
    repeat split; auto using write_object_mono, write_object_inv.
Qed.

Lemma init_creates_no_reference_witness :
  ∃ r,
    example_fs !! "/repo" = Some r
    ∧ pygit2.references (Workspace.repo unborn_ws) = pygit2.references r
    ∧ Workspace.head unborn_ws = "refs/heads/master".
Proof.
  assert (Hinit : Workspace.__init__ example_fs example_config example_clock
                    "/repo" "refs/heads/master" = Return unborn_ws)
    by (vm_compute; reflexivity).
  destruct (init_creates_no_reference _ _ _ _ _ _ Hinit)
    as (r & i & Hfs & Hrefs & _ & _ & Hhead & _).
  exists r. split; [exact Hfs | split; [exact Hrefs | exact Hhead]].
Defined.

(** X20: constructing a workspace on a reference that exists but names
    something else than a commit raises [AttributeError] for [tree]: the
    object has no tree when it is stored, and [self.branch] is [None] when
    it is not. *)
Theorem init_on_non_commit fs cfg clk repo_path initial_branch r o :
  fs !! repo_path = Some r →
  pygit2.references r !! initial_branch = Some (pygit2.Direct o) →
  is_commit o = false →
  Workspace.__init__ fs cfg clk repo_path initial_branch = Raise (AttributeError "tree").
Proof.
  intros Hfs Ht Ho. rewrite init_eval, Hfs, Ht.
  unfold Branch.__init__, pygit2.lookup_reference, pygit2.Reference_get_object.
  rewrite Ht. simpl. rewrite resolve_target_direct.
  unfold pygit2.getitem. case_decide; [| done].
  destruct o; try discriminate; done.
Qed.

Lemma init_on_non_commit_witness :
  Workspace.__init__ {[ "/tagged" := Workspace.repo tagged_blob_ws ]}
    example_config example_clock "/tagged" "refs/tags/v1"
  = Raise (AttributeError "tree").
Proof.
  apply (init_on_non_commit _ _ _ _ _ (Workspace.repo tagged_blob_ws) (BlobId "v1"));
    [vm_compute; reflexivity | vm_compute; reflexivity | reflexivity].
Defined.
